(** * Orderbook viewer: normalizer, connection hook and order simulator

    A shallow embedding of the TypeScript sources

      - [types/orderbook.ts]                          (data model),
      - [hooks/useOrderbookData.ts]                   (venue adapters,
        [parseOrderbookData], the WebSocket handlers of [connect]),
      - [components/InteractiveOrderSimulationForm.tsx]
        ([calculateMarketImpact]),

    together with the properties the design document states about them.

    Numbers.  A JavaScript number is an IEEE-754 binary64 value; it is
    modelled by the primitive type [float], whose operations round as
    JavaScript's do.  The order simulator is written once over an
    interface of the arithmetic it uses and read at two instances:
    [Double], the arithmetic of the program, and [Exact], in which finite
    values are rationals and nothing is rounded.  [Exact] serves to state
    what the algorithm computes up to rounding. *)

From Stdlib Require Import List String Ascii Bool ZArith QArith Qcanon.
From Stdlib Require Import Floats Lia Lqa Sorted.
Import ListNotations.

Set Implicit Arguments.
Set Warnings "-register-all,-inexact-float".
Close Scope Qc_scope.
Close Scope Q_scope.

(* ================================================================== *)
(** * The arithmetic of JavaScript numbers *)
(* ================================================================== *)

(** The operations on numbers that the sources apply. *)
Record Arith : Type := mkArith {
  number : Type;
  lit_0 : number;                          (* the literal [0] *)
  lit_100 : number;                        (* the literal [100] *)
  op_add : number -> number -> number;     (* [a + b] *)
  op_sub : number -> number -> number;     (* [a - b] *)
  op_mul : number -> number -> number;     (* [a * b] *)
  op_div : number -> number -> number;     (* [a / b] *)
  op_le : number -> number -> bool;        (* [a <= b] *)
  op_gt : number -> number -> bool;        (* [a > b] *)
  Math_min : number -> number -> number;   (* [Math.min(a, b)] *)
  Math_abs : number -> number;             (* [Math.abs(a)] *)
  to_boolean : number -> bool              (* truthiness *)
}.

(** ** Binary64 *)

Module F64.

Local Open Scope float_scope.

(** [Math.min(a, b)]: NaN as soon as one argument is NaN; [-0] is
    smaller than [+0]. *)
Definition min (a b : float) : float :=
  if (is_nan a || is_nan b)%bool then nan
  else if a <? b then a
  else if b <? a then b
  else if get_sign a then a else b.

(** [a > b] *)
Definition gtb (a b : float) : bool := b <? a.

(** [a >= b] *)
Definition geb (a b : float) : bool := b <=? a.

(** Truthiness of a number: [+0], [-0] and [NaN] are falsy. *)
Definition truthy (a : float) : bool :=
  negb (a =? 0) && negb (is_nan a).

End F64.

Definition Double : Arith :=
  mkArith 0%float 100%float
          PrimFloat.add PrimFloat.sub PrimFloat.mul PrimFloat.div
          PrimFloat.leb F64.gtb F64.min PrimFloat.abs F64.truthy.

(** ** Exact arithmetic

    The same operations without rounding: a finite value is a rational
    ([Qc]), and the three special values that a division can produce are
    kept (NaN and the two infinities).  Overflow and the sign of zero do
    not exist here. *)

Module ExactNum.


Local Open Scope Qc_scope.

Inductive num : Type :=
| Fin (q : Qc)
| PInf
| NInf
| NaN.

Definition zero : num := Fin 0.
Definition hundred : num := Fin (Q2Qc (inject_Z 100)).

(** Sign of a finite value, as a [comparison] with zero. *)
Definition sgn (q : Qc) : comparison := q ?= 0.

Definition opp (a : num) : num :=
  match a with
  | Fin q => Fin (- q)
  | PInf => NInf
  | NInf => PInf
  | NaN => NaN
  end.

(** [a + b] *)
Definition add (a b : num) : num :=
  match a, b with
  | NaN, _ | _, NaN => NaN
  | Fin x, Fin y => Fin (x + y)
  | PInf, NInf | NInf, PInf => NaN
  | PInf, _ | _, PInf => PInf
  | NInf, _ | _, NInf => NInf
  end.

(** [a - b] *)
Definition sub (a b : num) : num := add a (opp b).

(** An infinity of the sign given by [c]; [0 * Infinity] is NaN. *)
Definition inf_of_sign (c : comparison) : num :=
  match c with
  | Gt => PInf
  | Lt => NInf
  | Eq => NaN
  end.

(** [a * b] *)
Definition mul (a b : num) : num :=
  match a, b with
  | NaN, _ | _, NaN => NaN
  | Fin x, Fin y => Fin (x * y)
  | Fin x, PInf | PInf, Fin x => inf_of_sign (sgn x)
  | Fin x, NInf | NInf, Fin x => inf_of_sign (CompOpp (sgn x))
  | PInf, PInf | NInf, NInf => PInf
  | PInf, NInf | NInf, PInf => NInf
  end.

(** [a / b].  Dividing a finite value by zero gives NaN ([0/0]) or an
    infinity of the sign of the numerator. *)
Definition div (a b : num) : num :=
  match a, b with
  | NaN, _ | _, NaN => NaN
  | Fin x, Fin y =>
      match sgn y with
      | Eq => inf_of_sign (sgn x)
      | _ => Fin (x / y)
      end
  | Fin _, PInf | Fin _, NInf => Fin 0
  | PInf, Fin y => match sgn y with Lt => NInf | _ => PInf end
  | NInf, Fin y => match sgn y with Lt => PInf | _ => NInf end
  | PInf, PInf | PInf, NInf | NInf, PInf | NInf, NInf => NaN
  end.

(** [a < b]; every comparison with NaN is false. *)
Definition ltb (a b : num) : bool :=
  match a, b with
  | NaN, _ | _, NaN => false
  | Fin x, Fin y => match x ?= y with Lt => true | _ => false end
  | NInf, NInf | PInf, _ | _, NInf => false
  | NInf, _ | _, PInf => true
  end.

(** [a <= b] *)
Definition leb (a b : num) : bool :=
  match a, b with
  | NaN, _ | _, NaN => false
  | Fin x, Fin y => match x ?= y with Gt => false | _ => true end
  | NInf, _ | _, PInf => true
  | PInf, _ | _, NInf => false
  end.

(** [a > b] and [a >= b] *)
Definition gtb (a b : num) : bool := ltb b a.
Definition geb (a b : num) : bool := leb b a.

(** [Math.min(a, b)]: NaN as soon as one argument is NaN. *)
Definition min (a b : num) : num :=
  match a, b with
  | NaN, _ | _, NaN => NaN
  | _, _ => if leb a b then a else b
  end.

(** [Math.abs(a)] *)
Definition abs (a : num) : num :=
  match a with
  | Fin q => match sgn q with Lt => Fin (- q) | _ => Fin q end
  | PInf | NInf => PInf
  | NaN => NaN
  end.

(** Truthiness of a number: [0] and [NaN] are falsy. *)
Definition truthy (a : num) : bool :=
  match a with
  | Fin q => match sgn q with Eq => false | _ => true end
  | PInf | NInf => true
  | NaN => false
  end.

(** Literals. *)
Definition of_Z (z : Z) : num := Fin (Q2Qc (inject_Z z)).
Definition of_Q (q : Q) : num := Fin (Q2Qc q).

End ExactNum.

Definition Exact : Arith :=
  mkArith ExactNum.zero ExactNum.hundred
          ExactNum.add ExactNum.sub ExactNum.mul ExactNum.div
          ExactNum.leb ExactNum.gtb ExactNum.min ExactNum.abs ExactNum.truthy.

(* ================================================================== *)
(** * JavaScript values and abrupt completion *)
(* ================================================================== *)

Module Js.

(** What [JSON.parse] can return, plus [undefined] (the value of an
    absent property).  An object is the list of its own properties. *)
Inductive value : Type :=
| VUndef
| VNull
| VBool (b : bool)
| VNum (n : float)
| VStr (s : string)
| VArr (items : list value)
| VObj (props : list (string * value)).

(** The outcome of evaluating an expression: a value or a thrown
    exception (only [TypeError]s arise in the modelled code, and every
    [catch] treats all exceptions alike). *)
Inductive completion (A : Type) : Type :=
| Normal (a : A)
| Throw.
Arguments Throw {A}.

Definition bind {A B} (m : completion A) (k : A -> completion B)
  : completion B :=
  match m with
  | Normal a => k a
  | Throw => Throw
  end.

Fixpoint mapM {A B} (f : A -> completion B) (l : list A)
  : completion (list B) :=
  match l with
  | [] => Normal []
  | x :: xs =>
      bind (f x) (fun y => bind (mapM f xs) (fun ys => Normal (y :: ys)))
  end.

(** Conversion to boolean in [if], [&&] and [||]. *)
Definition truthy (v : value) : bool :=
  match v with
  | VUndef | VNull => false
  | VBool b => b
  | VNum n => F64.truthy n
  | VStr s => match s with EmptyString => false | _ => true end
  | VArr _ | VObj _ => true
  end.

Fixpoint lookup (k : string) (props : list (string * value)) : value :=
  match props with
  | [] => VUndef
  | (k', v) :: rest => if String.eqb k k' then v else lookup k rest
  end.

(** [v.k] for a data key [k] (a name that no prototype defines, as are
    all keys the adapters read): reading a property of [undefined] or
    [null] throws; a primitive or an array has no such property. *)
Definition get (v : value) (k : string) : completion value :=
  match v with
  | VUndef | VNull => Throw
  | VObj props => Normal (lookup k props)
  | VBool _ | VNum _ | VStr _ | VArr _ => Normal VUndef
  end.

(** The [i]-th character of a string as a one-character string. *)
Definition char_at (i : nat) (s : string) : value :=
  match String.get i s with
  | Some c => VStr (String c EmptyString)
  | None => VUndef
  end.

(** [v[0]]: the first element of an array, the first character of a
    string, the property named ["0"] of an object. *)
Definition get0 (v : value) : completion value :=
  match v with
  | VUndef | VNull => Throw
  | VArr items => Normal (nth 0 items VUndef)
  | VStr s => Normal (char_at 0 s)
  | VObj props => Normal (lookup "0" props)
  | VBool _ | VNum _ => Normal VUndef
  end.

(** [v.map(f)]: only an array has a callable [map]; calling the
    [undefined] (or non-function) [map] of anything else throws.  An
    exception of the callback aborts the whole call. *)
Definition map_method {A} (v : value) (f : value -> completion A)
  : completion (list A) :=
  match v with
  | VArr items => mapM f items
  | _ => Throw
  end.

(** The parameter pattern [[x, y]]: the argument must be iterable (an
    array or a string); missing positions are [undefined]. *)
Definition destructure_pair (v : value) : completion (value * value) :=
  match v with
  | VArr items => Normal (nth 0 items VUndef, nth 1 items VUndef)
  | VStr s => Normal (char_at 0 s, char_at 1 s)
  | _ => Throw
  end.

(** [arr.slice(0, n)] *)
Definition slice0 {A} (n : nat) (l : list A) : list A := firstn n l.

End Js.

Import Js.

Declare Scope js_scope.
Delimit Scope js_scope with js.
Notation "x <- m ;; k" := (Js.bind m (fun x => k))
  (at level 61, m at next level, right associativity) : js_scope.
Notation "' pat <- m ;; k" := (Js.bind m (fun x => match x with pat => k end))
  (at level 61, pat pattern, m at next level, right associativity) : js_scope.

(* ================================================================== *)
(** * types/orderbook.ts *)
(* ================================================================== *)

Module Orderbook.

Inductive Venue : Type := OKX | Bybit | Deribit.

(** The interfaces declare every numeric field as [number].  TypeScript
  types are erased at run time and the normalizer stores what the raw
  message holds, so the field type is a parameter: [value] for what
  [parseOrderbookData] builds, the numbers of an arithmetic for the
  well-typed books the simulator is applied to. *)
Record OrderbookLevel (A : Type) : Type := mkLevel {
  price : A;
  quantity : A;
  total : option A
}.

Record OrderbookData (A : Type) : Type := mkBook {
  bids : list (OrderbookLevel A);
  asks : list (OrderbookLevel A);
  timestamp : A;
  symbol : value;
  venue : Venue
}.

Record MarketImpactMetrics (A : Type) : Type := mkMetrics {
  estimatedFill : A;
  marketImpact : A;
  slippage : A;
  averagePrice : A;
  worstPrice : A
}.

End Orderbook.

Import Orderbook.

(* ================================================================== *)
(** * hooks/useOrderbookData.ts *)
(* ================================================================== *)

Module useOrderbookData.

Local Open Scope string_scope.
Local Open Scope js_scope.

Definition venue_name (venue : Venue) : string :=
  match venue with
  | OKX => "OKX"
  | Bybit => "Bybit"
  | Deribit => "Deribit"
  end.

Definition getWebSocketUrl (venue : Venue) (symbol : string) : string :=
  match venue with
  | OKX => "wss://ws.okx.com:8443/ws/v5/public"
  | Bybit => "wss://stream.bybit.com/v5/public/linear"
  | Deribit => "wss://www.deribit.com/ws/api/v2"
  end.

Definition getSubscriptionMessage (venue : Venue) (symbol : string) : value :=
  match venue with
  | OKX =>
      VObj [("op", VStr "subscribe");
            ("args", VArr [VObj [("channel", VStr "books");
                                 ("instId", VStr symbol)]])]
  | Bybit =>
      VObj [("op", VStr "subscribe");
            ("args", VArr [VStr ("orderbook.50." ++ symbol)])]
  | Deribit =>
      VObj [("jsonrpc", VStr "2.0");
            ("method", VStr "public/subscribe");
            ("id", VNum 1%float);
            ("params",
             VObj [("channels", VArr [VStr ("book." ++ symbol ++ ".100ms")])])]
  end.

(** ** The normalizer *)

Section Normalizer.

(** The built-ins [Number.parseFloat] and [Number.parseInt]; neither
    throws on a value that comes out of [JSON.parse]. *)
Variable parseFloat : value -> float.
Variable parseInt : value -> float.

(** [([price, quantity]: [string, string]) =>
      ({ price: Number.parseFloat(price),
         quantity: Number.parseFloat(quantity) })] *)
Definition level_of_strings (entry : value)
  : completion (OrderbookLevel value) :=
  '(price, quantity) <- destructure_pair entry ;;
  Normal (mkLevel (VNum (parseFloat price)) (VNum (parseFloat quantity))
                  None).

(** [([price, quantity]: [number, number]) => ({ price, quantity })] *)
Definition level_of_numbers (entry : value)
  : completion (OrderbookLevel value) :=
  '(price, quantity) <- destructure_pair entry ;;
  Normal (mkLevel price quantity None).

(** [raw.map(conv).slice(0, 15)] *)
Definition levels_of (raw : value)
    (conv : value -> completion (OrderbookLevel value))
  : completion (list (OrderbookLevel value)) :=
  mapped <- map_method raw conv ;;
  Normal (slice0 15 mapped).

(** Each definition is one [case] of the [switch]: [Normal (Some _)]
    is the [return] of a snapshot, [Normal None] falls out of the
    [if] to [break] and the final [return null]. *)
Definition parse_OKX (data : value)
  : completion (option (OrderbookData value)) :=
  d <- get data "data" ;;
  if truthy d then
    book <- get0 d ;;
    if truthy book then
      rawBids <- get book "bids" ;;
      bids <- levels_of rawBids level_of_strings ;;
      rawAsks <- get book "asks" ;;
      asks <- levels_of rawAsks level_of_strings ;;
      ts <- get book "ts" ;;
      instId <- get book "instId" ;;
      Normal (Some (mkBook bids asks (VNum (parseInt ts)) instId OKX))
    else Normal None
  else Normal None.

Definition parse_Bybit (data : value)
  : completion (option (OrderbookData value)) :=
  d <- get data "data" ;;
  if truthy d then
    rawBids <- get d "b" ;;
    bids <- levels_of rawBids level_of_strings ;;
    rawAsks <- get d "a" ;;
    asks <- levels_of rawAsks level_of_strings ;;
    ts <- get data "ts" ;;
    s <- get d "s" ;;
    Normal (Some (mkBook bids asks ts s Bybit))
  else Normal None.

Definition parse_Deribit (data : value)
  : completion (option (OrderbookData value)) :=
  params <- get data "params" ;;
  if truthy params then
    book <- get params "data" ;;
    if truthy book then
      rawBids <- get book "bids" ;;
      bids <- levels_of rawBids level_of_numbers ;;
      rawAsks <- get book "asks" ;;
      asks <- levels_of rawAsks level_of_numbers ;;
      ts <- get book "timestamp" ;;
      name <- get book "instrument_name" ;;
      Normal (Some (mkBook bids asks ts name Deribit))
    else Normal None
  else Normal None.

Definition parse_switch (venue : Venue) (data : value)
  : completion (option (OrderbookData value)) :=
  match venue with
  | OKX => parse_OKX data
  | Bybit => parse_Bybit data
  | Deribit => parse_Deribit data
  end.

(** [try { switch ... return null } catch (err) { return null }] *)
Definition parseOrderbookData (venue : Venue) (data : value)
  : option (OrderbookData value) :=
  match parse_switch venue data with
  | Normal r => r
  | Throw => None
  end.

(** The book payload an adapter reads its sides from, when the
    message has one: [data.data[0]], [data.data], [data.params.data]. *)
Definition book_payload (venue : Venue) (data : value)
  : completion value :=
  match venue with
  | OKX => d <- get data "data" ;; if truthy d then get0 d else Normal d
  | Bybit => get data "data"
  | Deribit =>
      params <- get data "params" ;;
      if truthy params then get params "data" else Normal params
  end.

(** The names under which a venue sends the two sides. *)
Definition bids_key (venue : Venue) : string :=
  match venue with OKX => "bids" | Bybit => "b" | Deribit => "bids" end.
Definition asks_key (venue : Venue) : string :=
  match venue with OKX => "asks" | Bybit => "a" | Deribit => "asks" end.

(** The converter a venue's adapter maps over a side. *)
Definition level_conv (venue : Venue)
  : value -> completion (OrderbookLevel value) :=
  match venue with
  | OKX | Bybit => level_of_strings
  | Deribit => level_of_numbers
  end.

End Normalizer.

(** ** The connection manager

    The hook's React state ([orderbookData], [isConnected], [error]),
    its two refs, and the part of the browser it talks to: the
    WebSockets it has created and the timeouts that are pending. *)

Inductive ReadyState : Type := CONNECTING | OPEN | CLOSING | CLOSED.

Record Socket : Type := mkSocket {
  url : string;
  readyState : ReadyState;
  sent : list value          (* what [ws.send] was given, as values *)
}.

(** A pending [setTimeout(() => { connect() }, delay)]; the hook sets
    no other timer. *)
Record Timer : Type := mkTimer {
  timer_id : nat;
  delay : Z                  (* milliseconds *)
}.

Record HookState : Type := mkHook {
  orderbookData : option (OrderbookData value);
  isConnected : bool;
  error : option string;
  wsRef : option nat;               (* index into [sockets] *)
  reconnectTimeoutRef : option nat; (* a timer id *)
  sockets : list Socket;
  timers : list Timer;
  next_timer : nat
}.

Definition initial : HookState :=
  mkHook None false None None None [] [] 1.

Definition setOrderbookData (d : option (OrderbookData value))
    (st : HookState) : HookState :=
  mkHook d (isConnected st) (error st) (wsRef st)
         (reconnectTimeoutRef st) (sockets st) (timers st) (next_timer st).

Definition setIsConnected (b : bool) (st : HookState) : HookState :=
  mkHook (orderbookData st) b (error st) (wsRef st)
         (reconnectTimeoutRef st) (sockets st) (timers st) (next_timer st).

Definition setError (e : option string) (st : HookState) : HookState :=
  mkHook (orderbookData st) (isConnected st) e (wsRef st)
         (reconnectTimeoutRef st) (sockets st) (timers st) (next_timer st).

Definition set_wsRef (r : option nat) (st : HookState) : HookState :=
  mkHook (orderbookData st) (isConnected st) (error st) r
         (reconnectTimeoutRef st) (sockets st) (timers st) (next_timer st).

Definition set_sockets (l : list Socket) (st : HookState) : HookState :=
  mkHook (orderbookData st) (isConnected st) (error st) (wsRef st)
         (reconnectTimeoutRef st) l (timers st) (next_timer st).

(** [reconnectTimeoutRef.current = setTimeout(() => connect(), ms)] *)
Definition setTimeout_connect (ms : Z) (st : HookState) : HookState :=
  mkHook (orderbookData st) (isConnected st) (error st) (wsRef st)
         (Some (next_timer st)) (sockets st)
         (timers st ++ [mkTimer (next_timer st) ms])
         (S (next_timer st)).

(** [clearTimeout(id)] *)
Definition clearTimeout (id : nat) (st : HookState) : HookState :=
  mkHook (orderbookData st) (isConnected st) (error st) (wsRef st)
         (reconnectTimeoutRef st) (sockets st)
         (filter (fun t => negb (Nat.eqb (timer_id t) id)) (timers st))
         (next_timer st).

Fixpoint update_nth {A} (i : nat) (f : A -> A) (l : list A) : list A :=
  match l, i with
  | [], _ => []
  | x :: xs, 0 => f x :: xs
  | x :: xs, S j => x :: update_nth j f xs
  end.

Definition set_readyState (r : ReadyState) (s : Socket) : Socket :=
  mkSocket (url s) r (sent s).

(** [ws.close()]: starts the closing handshake of a socket that is not
    yet closing; the close event is delivered later. *)
Definition close_socket (s : Socket) : Socket :=
  match readyState s with
  | CONNECTING | OPEN => set_readyState CLOSING s
  | CLOSING | CLOSED => s
  end.

(** [ws.send(msg)] of an open socket. *)
Definition send_socket (msg : value) (s : Socket) : Socket :=
  mkSocket (url s) (readyState s) (sent s ++ [msg]).

Definition readyState_eqb (a b : ReadyState) : bool :=
  match a, b with
  | CONNECTING, CONNECTING | OPEN, OPEN
  | CLOSING, CLOSING | CLOSED, CLOSED => true
  | _, _ => false
  end.

Section Manager.

Variable parseFloat : value -> float.
Variable parseInt : value -> float.

(** [JSON.parse], which throws on text that is not JSON. *)
Variable JSON_parse : string -> completion value.

(** [new WebSocket(url)] throws (the rendered exception is returned)
    on a URL it rejects. *)
Variable WebSocket_rejects : string -> option string.

(** The arguments of the hook. *)
Variable venue : Venue.
Variable symbol : string.

(** [ws.onopen] of the socket [ws] *)
Definition onopen (ws : nat) (st : HookState) : HookState :=
  let st := setIsConnected true st in
  let st := setError None st in
  let subscriptionMessage := getSubscriptionMessage venue symbol in
  set_sockets (update_nth ws (send_socket subscriptionMessage)
                          (sockets st)) st.

(** [ws.onmessage]; [text] is [event.data]. *)
Definition onmessage (text : string) (st : HookState) : HookState :=
  match JSON_parse text with
  | Throw => st
  | Normal data =>
      match parseOrderbookData parseFloat parseInt venue data with
      | Some parsedData => setOrderbookData (Some parsedData) st
      | None => st
      end
  end.

(** [ws.onerror] *)
Definition onerror (st : HookState) : HookState :=
  let st :=
    setError (Some ("WebSocket connection error for " ++ venue_name venue))
             st in
  setIsConnected false st.

(** [ws.onclose] *)
Definition onclose (st : HookState) : HookState :=
  let st := setIsConnected false st in
  (* Auto-reconnect after 5 seconds *)
  setTimeout_connect 5000%Z st.

(** [connect] *)
Definition connect (st : HookState) : HookState :=
  let st :=
    match wsRef st with
    | Some i =>
        match nth_error (sockets st) i with
        | Some s =>
            if readyState_eqb (readyState s) OPEN
            then set_sockets (update_nth i close_socket (sockets st)) st
            else st
        | None => st
        end
    | None => st
    end in
  let wsUrl := getWebSocketUrl venue symbol in
  match wsUrl with
  | EmptyString =>
      setError
        (Some ("WebSocket URL not available for " ++ venue_name venue)) st
  | _ =>
      match WebSocket_rejects wsUrl with
      | Some err =>
          let st :=
            setError (Some ("Failed to connect to " ++ venue_name venue
                              ++ ": " ++ err)) st in
          setIsConnected false st
      | None =>
          let ws := List.length (sockets st) in
          let st :=
            set_sockets (sockets st ++ [mkSocket wsUrl CONNECTING []]) st in
          set_wsRef (Some ws) st
      end
  end.

(** [reconnect] *)
Definition reconnect (st : HookState) : HookState :=
  let st :=
    match reconnectTimeoutRef st with
    | Some id => clearTimeout id st
    | None => st
    end in
  connect st.

(** The clean-up of the effect (unmount, or a new venue or symbol). *)
Definition cleanup (st : HookState) : HookState :=
  let st :=
    match wsRef st with
    | Some i => set_sockets (update_nth i close_socket (sockets st)) st
    | None => st
    end in
  match reconnectTimeoutRef st with
  | Some id => clearTimeout id st
  | None => st
  end.

(** What the browser does to the hook.  Mounting runs the effect,
    which calls [connect].  A socket event first updates the socket's
    [readyState], then runs the handler.  A timeout that is still
    pending is removed and its callback, [connect], runs. *)
Inductive event : Type :=
| Mount
| SocketOpen (ws : nat)
| SocketMessage (ws : nat) (text : string)
| SocketError (ws : nat)
| SocketClose (ws : nat)
| TimerFires (id : nat)
| ManualReconnect
| Unmount.

Definition pending (id : nat) (st : HookState) : bool :=
  existsb (fun t => Nat.eqb (timer_id t) id) (timers st).

Definition dispatch (st : HookState) (e : event) : HookState :=
  match e with
  | Mount => connect st
  | SocketOpen ws =>
      onopen ws
        (set_sockets (update_nth ws (set_readyState OPEN) (sockets st)) st)
  | SocketMessage _ text => onmessage text st
  | SocketError _ => onerror st
  | SocketClose ws =>
      onclose
        (set_sockets (update_nth ws (set_readyState CLOSED) (sockets st))
                     st)
  | TimerFires id =>
      if pending id st then connect (clearTimeout id st) else st
  | ManualReconnect => reconnect st
  | Unmount => cleanup st
  end.

Definition run (st : HookState) (trace : list event) : HookState :=
  fold_left dispatch trace st.

(** A transport failure of socket [ws], as the WebSocket interface
    reports it: an error event followed by a close event. *)
Definition transport_failure (ws : nat) : list event :=
  [SocketError ws; SocketClose ws].

(** The socket the hook currently refers to. *)
Definition current_socket (st : HookState) : option Socket :=
  match wsRef st with
  | Some i => nth_error (sockets st) i
  | None => None
  end.

End Manager.

End useOrderbookData.

(* ================================================================== *)
(** * components/InteractiveOrderSimulationForm.tsx *)
(* ================================================================== *)

Module InteractiveOrderSimulationForm.

Unset Implicit Arguments.

Inductive OrderType : Type := market | limit.
Inductive Side : Type := buy | sell.
Inductive Timing : Type := immediate | after_5s | after_10s | after_30s.

(** The [useState] cells of the form that describe the order. *)
Record FormState : Type := mkForm {
  orderType : OrderType;
  side : Side;
  price : string;            (* the limit price, as typed *)
  quantity : string;         (* the quantity, as typed *)
  timing : Timing
}.

(** [side === "buy" ? orderbookData.asks : orderbookData.bids] *)
Definition opposing {N} (s : Side) (book : OrderbookData N)
  : list (OrderbookLevel N) :=
  match s with
  | buy => asks book
  | sell => bids book
  end.

Section Simulator.

(** The arithmetic the simulator runs on. *)
Variable A : Arith.

Let num : Type := number A.

(** ** Divisions on record

    The metrics are computed in a writer monad whose log is the list of
    the divisors of the divisions that were evaluated, in order; a
    division by zero shows up as a zero in the log (its value is NaN or
    an infinity, as in JavaScript). *)
Definition Divs (T : Type) : Type := (T * list num)%type.

Definition ret {T} (a : T) : Divs T := (a, []).

Definition bind {T U} (m : Divs T) (k : T -> Divs U) : Divs U :=
  let (a, l1) := m in
  let (b, l2) := k a in
  (b, (l1 ++ l2)%list).

Definition divide (a b : num) : Divs num := (op_div A a b, [b]).

Notation "x <- m ;; k" := (bind m (fun x => k))
  (at level 61, m at next level, right associativity).

(** ** The walk of the book *)

(** The four [let] variables of the loop. *)
Record Walk : Type := mkWalk {
  remainingQuantity : num;
  totalCost : num;
  totalQuantityFilled : num;
  worstPrice : num
}.

Definition start (orderQuantity : num) : Walk :=
  mkWalk orderQuantity (lit_0 A) (lit_0 A) (lit_0 A).

(** The body of the loop after the [break] test. *)
Definition take_level (w : Walk) (level : OrderbookLevel num) : Walk :=
  let quantityAtLevel :=
    Math_min A (remainingQuantity w) (Orderbook.quantity level) in
  mkWalk (op_sub A (remainingQuantity w) quantityAtLevel)
         (op_add A (totalCost w)
                 (op_mul A quantityAtLevel (Orderbook.price level)))
         (op_add A (totalQuantityFilled w) quantityAtLevel)
         (Orderbook.price level).

(** [for (const level of levels) { if (remainingQuantity <= 0) break; ... }] *)
Fixpoint walk (levels : list (OrderbookLevel num)) (w : Walk) : Walk :=
  match levels with
  | [] => w
  | level :: rest =>
      if op_le A (remainingQuantity w) (lit_0 A) then w
      else walk rest (take_level w level)
  end.

(** [levels.reduce((sum, level) => sum + level.quantity, 0)] *)
Definition total_quantity (levels : list (OrderbookLevel num)) : num :=
  fold_left (fun sum level => op_add A sum (Orderbook.quantity level))
            levels (lit_0 A).

(** ** The metrics *)

(** [(totalQuantityFilled / orderQuantity) * 100] *)
Definition estimatedFill_of (w : Walk) (orderQuantity : num) : Divs num :=
  ratio <- divide (totalQuantityFilled w) orderQuantity ;;
  ret (op_mul A ratio (lit_100 A)).

(** [totalQuantityFilled > 0 ? totalCost / totalQuantityFilled : 0] *)
Definition averagePrice_of (w : Walk) : Divs num :=
  if op_gt A (totalQuantityFilled w) (lit_0 A)
  then divide (totalCost w) (totalQuantityFilled w)
  else ret (lit_0 A).

(** [levels[0]?.price || 0] *)
Definition bestPrice_of (levels : list (OrderbookLevel num)) : num :=
  match levels with
  | [] => lit_0 A
  | level :: _ =>
      if to_boolean A (Orderbook.price level) then Orderbook.price level
      else lit_0 A
  end.

(** [bestPrice > 0
       ? Math.abs((averagePrice - bestPrice) / bestPrice) * 100 : 0] *)
Definition slippage_of (averagePrice bestPrice : num) : Divs num :=
  if op_gt A bestPrice (lit_0 A)
  then ratio <- divide (op_sub A averagePrice bestPrice) bestPrice ;;
       ret (op_mul A (Math_abs A ratio) (lit_100 A))
  else ret (lit_0 A).

(** [levels.length > 0
       ? (totalQuantityFilled / levels.reduce(...)) * 100 : 0] *)
Definition marketImpact_of (w : Walk) (levels : list (OrderbookLevel num))
  : Divs num :=
  if Nat.ltb 0 (List.length levels)
  then ratio <- divide (totalQuantityFilled w) (total_quantity levels) ;;
       ret (op_mul A ratio (lit_100 A))
  else ret (lit_0 A).

(** Everything after the choice of [levels]. *)
Definition impact (orderQuantity : num) (levels : list (OrderbookLevel num))
  : Divs (MarketImpactMetrics num) :=
  let w := walk levels (start orderQuantity) in
  estimatedFill <- estimatedFill_of w orderQuantity ;;
  averagePrice <- averagePrice_of w ;;
  let bestPrice := bestPrice_of levels in
  slippage <- slippage_of averagePrice bestPrice ;;
  marketImpact <- marketImpact_of w levels ;;
  ret (mkMetrics estimatedFill marketImpact slippage averagePrice
                 (worstPrice w)).

Definition no_metrics : MarketImpactMetrics num :=
  mkMetrics (lit_0 A) (lit_0 A) (lit_0 A) (lit_0 A) (lit_0 A).

(** [Number.parseFloat] on the text of the quantity field. *)
Variable parseFloat : string -> num.

Definition calculateMarketImpact_logged
    (orderbookData : option (OrderbookData num)) (form : FormState)
  : Divs (MarketImpactMetrics num) :=
  match orderbookData with
  | None => ret no_metrics
  | Some book =>
      match quantity form with
      | EmptyString => ret no_metrics
      | _ =>
          let orderQuantity := parseFloat (quantity form) in
          let levels := opposing (side form) book in
          impact orderQuantity levels
      end
  end.

(** [calculateMarketImpact] *)
Definition calculateMarketImpact
    (orderbookData : option (OrderbookData num)) (form : FormState)
  : MarketImpactMetrics num :=
  fst (calculateMarketImpact_logged orderbookData form).

(** The divisors of the divisions one call evaluates. *)
Definition divisors
    (orderbookData : option (OrderbookData num)) (form : FormState)
  : list num :=
  snd (calculateMarketImpact_logged orderbookData form).

End Simulator.

Arguments ret {A T} a.
Arguments bind {A T U} m k.
Arguments mkWalk {A} _ _ _ _.
Arguments remainingQuantity {A} _.
Arguments totalCost {A} _.
Arguments totalQuantityFilled {A} _.
Arguments worstPrice {A} _.

Set Implicit Arguments.

End InteractiveOrderSimulationForm.

(* ================================================================== *)
(** * A fragment of the built-in parsers, for closed examples *)
(* ================================================================== *)

Module Builtins.

Definition digit_of (c : ascii) : option Z :=
  let n := Z.of_nat (nat_of_ascii c) in
  if (Z.leb 48 n && Z.leb n 57)%bool then Some (n - 48)%Z else None.

(** Reads the longest prefix of decimal digits: its value on top of
    [acc], the number of digits read and the rest of the string. *)
Fixpoint read_digits (s : string) (acc : Z) (n : nat) : Z * nat * string :=
  match s with
  | EmptyString => (acc, n, s)
  | String c rest =>
      match digit_of c with
      | Some d => read_digits rest (10 * acc + d)%Z (S n)
      | None => (acc, n, s)
      end
  end.

(** An unsigned decimal literal [ddd] or [ddd.ddd] as the fraction
    [numerator / 10^k]; [None] when the text does not start with a
    digit. *)
Definition read_decimal (s : string) : option (Z * nat) :=
  match read_digits s 0%Z 0 with
  | (_, O, _) => None
  | (int_part, _, String "."%char rest) =>
      match read_digits rest int_part 0 with
      | (numerator, k, _) => Some (numerator, k)
      end
  | (int_part, _, _) => Some (int_part, 0)
  end.

(** [Number.parseFloat] on such a literal, in binary64: for a numerator
    and a power of ten that are both exact (at most 15 digits), the
    rounded quotient is the nearest binary64 value. *)
Definition parseFloat_text (s : string) : float :=
  match read_decimal s with
  | None => nan
  | Some (numerator, k) =>
      (of_uint63 (Uint63.of_Z numerator)
       / of_uint63 (Uint63.of_Z (10 ^ Z.of_nat k)))%float
  end.

(** The same literal in exact arithmetic. *)
Definition parseFloat_exact (s : string) : ExactNum.num :=
  match read_decimal s with
  | None => ExactNum.NaN
  | Some (numerator, k) =>
      ExactNum.Fin (Q2Qc (inject_Z numerator / inject_Z (10 ^ Z.of_nat k)))
  end.

(** [Number.parseFloat(v)] for the values of the examples: a number is
    printed and read back unchanged, a string is scanned. *)
Definition parseFloat (v : value) : float :=
  match v with
  | VNum n => n
  | VStr s => parseFloat_text s
  | _ => nan
  end.

(** [Number.parseInt(v)], likewise, on unsigned decimal text and on
    whole numbers. *)
Definition parseInt (v : value) : float :=
  match v with
  | VNum n => n
  | VStr s =>
      match read_digits s 0%Z 0 with
      | (_, O, _) => nan
      | (int_part, _, _) => of_uint63 (Uint63.of_Z int_part)
      end
  | _ => nan
  end.

End Builtins.

(* ================================================================== *)
(** * The vocabulary of the statements *)
(* ================================================================== *)

Module Properties.

Import useOrderbookData.
Local Open Scope string_scope.

(** ** Books *)


(** [a.price >= b.price] and [a.price <= b.price] between two levels of
    a normalized snapshot whose prices are numbers. *)
Definition price_geb (a b : OrderbookLevel value) : bool :=
  match price a, price b with
  | VNum x, VNum y => F64.geb x y
  | _, _ => false
  end.

Definition price_leb (a b : OrderbookLevel value) : bool :=
  match price a, price b with
  | VNum x, VNum y => PrimFloat.leb x y
  | _, _ => false
  end.

(** [bids[i].price >= bids[i+1].price] for all valid [i]. *)
Definition bids_sorted (l : list (OrderbookLevel value)) : Prop :=
  Sorted (fun a b => price_geb a b = true) l.

(** [asks[i].price <= asks[i+1].price] for all valid [i]. *)
Definition asks_sorted (l : list (OrderbookLevel value)) : Prop :=
  Sorted (fun a b => price_leb a b = true) l.

(** ** Raw messages *)

(** All the levels of a raw side, converted one by one in the order of
    the message (not yet cut): [raw.map(conv)]. *)
Definition converted (conv : value -> completion (OrderbookLevel value))
    (raw : value) : completion (list (OrderbookLevel value)) :=
  map_method raw conv.

(** A side of a snapshot: the raw side, converted and cut after the
    first 15 levels. *)
Definition side_from (conv : value -> completion (OrderbookLevel value))
    (raw : value) (side : list (OrderbookLevel value)) : Prop :=
  exists all, converted conv raw = Normal all /\ side = firstn 15 all.

(** The raw message carries the asks of its book: it has a book payload
    and the payload has the venue's asks property. *)
Definition has_asks_field (venue : Venue) (data : value) : bool :=
  match book_payload venue data with
  | Normal book =>
      match get book (asks_key venue) with
      | Normal VUndef => false
      | Normal _ => true
      | Throw => false
      end
  | Throw => false
  end.

(** ** Timers *)

(** Every pending timer of the hook waits 5000 ms. *)
Definition fixed_delay (st : HookState) : Prop :=
  Forall (fun t => delay t = 5000%Z) (timers st).

End Properties.

(* ================================================================== *)
(** * Concrete books, orders and messages *)
(* ================================================================== *)

Module Examples.

Import useOrderbookData.
Import InteractiveOrderSimulationForm.
Local Open Scope string_scope.

(** ** Books in binary64 *)

Definition level (p q : float) : OrderbookLevel float :=
  mkLevel p q None.

Definition asks_only (levels : list (OrderbookLevel float))
  : OrderbookData float :=
  mkBook [] levels 0%float (VStr "BTC-USDT") OKX.

(** Asks [{100, 1}, {101, 2}], no bids. *)
Definition two_asks : OrderbookData float :=
  asks_only [level 100 1; level 101 2].

(** One ask of quantity 0. *)
Definition empty_ask : OrderbookData float :=
  asks_only [level 100 0].

(** No ask at all. *)
Definition no_asks : OrderbookData float :=
  mkBook [level 99 1] [] 0%float (VStr "BTC-USDT") OKX.


(** Asks of 1.8 and 2.2, which add up to 4. *)
Definition asks_adding_to_4 : OrderbookData float :=
  asks_only [level 100 1.8; level 101 2.2].

Definition buy_order (qty : string) : FormState :=
  mkForm market buy "" qty immediate.

(** ** The same books in exact arithmetic *)

Definition level_exact (p q : Q) : OrderbookLevel ExactNum.num :=
  mkLevel (ExactNum.of_Q p) (ExactNum.of_Q q) None.

Definition two_asks_exact : OrderbookData ExactNum.num :=
  mkBook [] [level_exact 100 1; level_exact 101 2]
         (ExactNum.of_Z 0) (VStr "BTC-USDT") OKX.

(** ** Raw messages *)

(** A raw level [[price, quantity]] of numbers. *)
Definition raw_level (p q : float) : value :=
  VArr [VNum p; VNum q].

(** A Deribit book notification with the given sides. *)
Definition deribit_message (rawBids rawAsks : list value) : value :=
  VObj [("params",
         VObj [("data",
                VObj [("bids", VArr rawBids);
                      ("asks", VArr rawAsks);
                      ("timestamp", VNum 1%float);
                      ("instrument_name", VStr "BTC-PERPETUAL")])])].

(** Bids delivered in ascending order and asks in descending order. *)
Definition unsorted_message : value :=
  deribit_message [raw_level 100 1; raw_level 101 1]
                  [raw_level 103 1; raw_level 102 1].

Definition float_of_Z (z : Z) : float := of_uint63 (Uint63.of_Z z).

(** Twenty levels per side, best price first. *)
Definition deep_message : value :=
  deribit_message
    (map (fun i => raw_level (float_of_Z (100 - Z.of_nat i)) 1) (seq 0 20))
    (map (fun i => raw_level (float_of_Z (101 + Z.of_nat i)) 1) (seq 0 20)).

(** An OKX book message whose payload has bids but no asks. *)
Definition okx_without_asks : value :=
  VObj [("data",
         VArr [VObj [("bids", VArr [VArr [VStr "100"; VStr "1"]]);
                     ("ts", VStr "1");
                     ("instId", VStr "BTC-USDT")]])].

(** A snapshot as a previous message may have left it. *)
Definition stored_snapshot : OrderbookData value :=
  mkBook [mkLevel (VNum 100%float) (VNum 1%float) None]
         [mkLevel (VNum 101%float) (VNum 1%float) None]
         (VNum 1%float) (VStr "BTC-USDT") OKX.

(** A [JSON.parse] that knows one text, standing for the serialization
    of [okx_without_asks]. *)
Definition parse_one_text (text : string) : completion value :=
  if String.eqb text "okx-without-asks" then Normal okx_without_asks
  else Throw.

(** A [new WebSocket] that accepts every URL. *)
Definition accept_all (url : string) : option string := None.

(** The hook for OKX and BTC-USDT once mounted and connected. *)
Definition open_state : HookState :=
  run Builtins.parseFloat Builtins.parseInt parse_one_text accept_all
      OKX "BTC-USDT" initial [Mount; SocketOpen 0].

End Examples.


(* ================================================================== *)
(** * More of the sources *)
(* ================================================================== *)

(** ** types/orderbook.ts: [SimulatedOrder] *)

Module Simulated.

Import InteractiveOrderSimulationForm.

Record SimulatedOrder : Type := mkOrder {
  venue : Venue;
  symbol : string;
  side : Side;
  type : OrderType;
  price : option float;        (* [price?: number] *)
  quantity : float;
  timing : Timing;
  estimatedFill : float;
  marketImpact : float;
  slippage : float;
  timeToFill : option float    (* [timeToFill?: number] *)
}.

End Simulated.

(** ** components/InteractiveOrderSimulationForm.tsx: the handlers *)

Module OrderSimulationHandlers.

Import InteractiveOrderSimulationForm.
Local Open Scope float_scope.

(** [const timingMap = { immediate: 0, "5s": 5, "10s": 10, "30s": 30 }] *)
Definition timingMap (t : Timing) : float :=
  match t with
  | immediate => 0
  | after_5s => 5
  | after_10s => 10
  | after_30s => 30
  end.

Definition is_empty (s : string) : bool :=
  match s with EmptyString => true | _ => false end.

Definition is_limit (t : OrderType) : bool :=
  match t with limit => true | market => false end.

(** [const isFormValid = quantity && (orderType === "market" || price)]:
    the value of the expression, a string or [true]. *)
Definition isFormValid (form : FormState) : value :=
  if is_empty (quantity form) then VStr (quantity form)
  else match orderType form with
       | market => VBool true
       | limit => VStr (price form)
       end.

Section Handlers.

(** [Number.parseFloat] on the text of a field. *)
Variable parseFloat : string -> float.

(** The props [venue] and [symbol] of the form. *)
Variable venue : Venue.
Variable symbol : string.

(** [handleSimulate]: the order handed to [onOrderSimulation], or nothing
    when the handler returns early. *)
Definition handleSimulate (orderbookData : option (OrderbookData float))
    (form : FormState) : option Simulated.SimulatedOrder :=
  if (is_empty (quantity form)
      || (is_limit (orderType form) && is_empty (price form)))%bool
  then None
  else
    let metrics := calculateMarketImpact Double parseFloat orderbookData form in
    Some (Simulated.mkOrder
            venue symbol (side form) (orderType form)
            (if is_limit (orderType form)
             then Some (parseFloat (price form)) else None)
            (parseFloat (quantity form))
            (timing form)
            (Orderbook.estimatedFill metrics)
            (Orderbook.marketImpact metrics)
            (Orderbook.slippage metrics)
            (Some (timingMap (timing form)))).

End Handlers.

End OrderSimulationHandlers.

(** ** components/OrderbookDisplay.tsx: the memoized figures *)

Module OrderbookDisplay.

Local Open Scope float_scope.

Record Figures : Type := mkFigures {
  processedAsks : list (OrderbookLevel float);
  processedBids : list (OrderbookLevel float);
  spread : float;
  midPrice : float;
  volumeWeightedPrice : float
}.

(** [levels.reduce((sum, l) => sum + l.quantity, 0)] *)
Definition volume (levels : list (OrderbookLevel float)) : float :=
  fold_left (fun sum l => sum + quantity l) levels 0.

(** [levels.reduce((sum, l) => sum + l.price * l.quantity, 0)] *)
Definition turnover (levels : list (OrderbookLevel float)) : float :=
  fold_left (fun sum l => sum + price l * quantity l) levels 0.

(** The callback of [useMemo]. *)
Definition figures (orderbookData : option (OrderbookData float)) : Figures :=
  match orderbookData with
  | None => mkFigures [] [] 0 0 0
  | Some book =>
      let asks := slice0 15 (asks book) in
      let bids := slice0 15 (bids book) in
      let spreadValue :=
        match asks, bids with
        | a :: _, b :: _ => price a - price b
        | _, _ => 0
        end in
      let midPriceValue :=
        match asks, bids with
        | a :: _, b :: _ => (price a + price b) / 2
        | _, _ => 0
        end in
      let totalBidVolume := volume bids in
      let totalAskVolume := volume asks in
      let bidVWAP := turnover bids / totalBidVolume in
      let askVWAP := turnover asks / totalAskVolume in
      let vwap := (bidVWAP + askVWAP) / 2 in
      mkFigures asks bids spreadValue midPriceValue
                (if F64.truthy vwap then vwap else 0)
  end.

End OrderbookDisplay.

(* ================================================================== *)
(** * More vocabulary *)
(* ================================================================== *)

Module MoreProperties.

Import useOrderbookData.
Local Open Scope string_scope.

(** ** Raw messages *)

(** Something was returned. *)
Definition returned {T} (o : option T) : bool :=
  match o with Some _ => true | None => false end.




(** Both fields of a level are numbers. *)
Definition numeric_level (l : OrderbookLevel value) : bool :=
  match Orderbook.price l, Orderbook.quantity l with
  | VNum _, VNum _ => true
  | _, _ => false
  end.

(** What a text received on a socket parses to. *)
Definition received (parseFloat parseInt : value -> float)
    (JSON_parse : string -> completion value) (venue : Venue)
    (text : string) : option (OrderbookData value) :=
  match JSON_parse text with
  | Normal data => parseOrderbookData parseFloat parseInt venue data
  | Throw => None
  end.

(** The message events of a list of (socket, text) pairs. *)
Definition messages (l : list (nat * string)) : list event :=
  map (fun m => SocketMessage (fst m) (snd m)) l.

(** The snapshot after a burst of messages, given what each text
    parses to: that of the last text that gives one, else the one held
    before. *)
Definition latest_snapshot (parsed : list (option (OrderbookData value)))
    (old : option (OrderbookData value)) : option (OrderbookData value) :=
  match find returned (rev parsed) with
  | Some (Some snap) => Some snap
  | _ => old
  end.

(** ** The hook *)

(** The state of the [i]-th socket the hook created. *)
Definition readyState_of (st : HookState) (i : nat) : option ReadyState :=
  option_map readyState (nth_error (sockets st) i).

(** The hook has just replaced the socket [old], which is closing, by
    the socket [new], which is connecting. *)
Definition replacing (st : HookState) (old new : nat) : Prop :=
  wsRef st = Some new
  /\ S new = List.length (sockets st)
  /\ old < new
  /\ readyState_of st old = Some CLOSING
  /\ readyState_of st new = Some CONNECTING.





End MoreProperties.

(* ================================================================== *)
(** * More concrete messages, states and orders *)
(* ================================================================== *)

Module MoreExamples.

Import useOrderbookData.
Import InteractiveOrderSimulationForm.
Import Examples.
Local Open Scope string_scope.

(** An OKX book message with one level per side. *)
Definition okx_message : value :=
  VObj [("data",
         VArr [VObj [("bids", VArr [VArr [VStr "100"; VStr "1"]]);
                     ("asks", VArr [VArr [VStr "101"; VStr "2"]]);
                     ("ts", VStr "1");
                     ("instId", VStr "BTC-USDT")]])].

(** The hook for OKX and BTC-USDT once mounted: its first socket is
    connecting. *)
Definition mounted : HookState :=
  run Builtins.parseFloat Builtins.parseInt parse_one_text accept_all
      OKX "BTC-USDT" initial [Mount].

(** The hook for OKX and BTC-USDT, asked to reconnect while connected. *)
Definition reconnected_while_open : HookState :=
  run Builtins.parseFloat Builtins.parseInt parse_one_text accept_all
      OKX "BTC-USDT" open_state [ManualReconnect].

(** Two sockets closed one after the other: two timers are pending. *)
Definition two_timers : HookState :=
  run Builtins.parseFloat Builtins.parseInt parse_one_text accept_all
      OKX "BTC-USDT" initial
      [Mount; ManualReconnect; SocketClose 0; SocketClose 1].

(** The OKX message again, marked as an update. *)
Definition okx_update : value :=
  match okx_message with
  | VObj props => VObj (("action", VStr "update") :: props)
  | other => other
  end.

End MoreExamples.

(* ================================================================== *)
(** * Exact arithmetic *)
(* ================================================================== *)

Module ExactNumFacts.

Import ExactNum.
Local Open Scope Qc_scope.














End ExactNumFacts.

(* ================================================================== *)
(** * The order simulator *)
(* ================================================================== *)

Module SimulatorFacts.

Import ExactNum ExactNumFacts.
Import InteractiveOrderSimulationForm.
Import Properties Examples.
Local Open Scope string_scope.

(** ** Whatever the arithmetic *)

Section AnyArithmetic.

Variable A : Arith.

Lemma fst_bind {T U} (m : Divs A T) (k : T -> Divs A U) :
  fst (bind m k) = fst (k (fst m)).
Proof. unfold bind. destruct m as [a l1]. cbn [fst]. now destruct (k a). Qed.

Lemma estimatedFill_impact orderQuantity levels :
  estimatedFill (fst (impact A orderQuantity levels))
  = op_mul A
      (op_div A (totalQuantityFilled (walk A levels (start A orderQuantity)))
                orderQuantity)
      (lit_100 A).
Proof. unfold impact. now rewrite !fst_bind. Qed.

(** The market impact is guarded by the number of levels: 0 without a
    level, the quotient by the total quantity otherwise. *)
Lemma marketImpact_guard (w : Walk A) levels :
  fst (marketImpact_of A w levels)
  = match levels with
    | [] => lit_0 A
    | _ :: _ =>
        op_mul A (op_div A (totalQuantityFilled w) (total_quantity A levels))
               (lit_100 A)
    end.
Proof. destruct levels; reflexivity. Qed.

(** With a book and a quantity typed in, the simulator is [impact] on
    the parsed quantity and the opposing side. *)
Lemma calculateMarketImpact_logged_eq parseFloat book form :
  quantity form <> EmptyString ->
  calculateMarketImpact_logged A parseFloat (Some book) form
  = impact A (parseFloat (quantity form)) (opposing (side form) book).
Proof.
  intros Hq. unfold calculateMarketImpact_logged.
  destruct (quantity form); [contradiction|reflexivity].
Qed.

(** C2.  The simulator never reads the order type or the limit price:
    for every book and every order, a limit order at any price gets the
    metrics of the market order of the same side and quantity, so the
    walk cannot stop at the limit price. *)
Theorem limit_price_ignored :
  forall (parseFloat : string -> number A)
         (orderbookData : option (OrderbookData (number A)))
         (s : Side) (limitPrice anyPrice quantity : string)
         (t t' : Timing),
    calculateMarketImpact A parseFloat orderbookData
      (mkForm limit s limitPrice quantity t)
    = calculateMarketImpact A parseFloat orderbookData
        (mkForm market s anyPrice quantity t').
Proof. intros. destruct orderbookData; reflexivity. Qed.

End AnyArithmetic.

(** ** In exact arithmetic *)


Local Open Scope Qc_scope.





(** Two numbers are equal when their rationals are. *)
Lemma Fin_eq (x y : Qc) : (x == y)%Q -> Fin x = Fin y.
Proof. intros H. f_equal. now apply Qc_is_canon. Qed.






(** ** In binary64 *)

Local Close Scope Qc_scope.
Local Open Scope float_scope.

Lemma zero_div_positive (q : float) : (0 <? q) = true -> 0 / q = 0.
Proof.
  intros H. rewrite <- (SF2Prim_Prim2SF (0 / q)). rewrite div_spec.
  rewrite ltb_spec in H.
  destruct (Prim2SF q) as [s|s| |s m e]; try discriminate H;
    destruct s; try discriminate H; reflexivity.
Qed.

Lemma positive_not_zero (q : float) : (0 <? q) = true -> (q =? 0) = false.
Proof.
  intros H. rewrite eqb_spec. rewrite ltb_spec in H.
  destruct (Prim2SF q) as [s|s| |s m e]; try discriminate H;
    destruct s; try discriminate H; reflexivity.
Qed.

(** *** An empty opposing side *)

(** C4.  With no asks, a buy order of quantity [> 0] evaluates a single
    division, by the order quantity, hence none by zero; the best
    price, the slippage, the market impact and the estimated fill are
    all 0. *)
Theorem empty_asks_buy_is_safe :
  forall (parseFloat : string -> float) (book : OrderbookData float)
         (form : FormState),
    asks book = [] ->
    side form = buy ->
    quantity form <> EmptyString ->
    F64.gtb (parseFloat (quantity form)) 0 = true ->
    let m := calculateMarketImpact Double parseFloat (Some book) form in
    bestPrice_of Double (opposing (side form) book) = 0
    /\ slippage m = 0
    /\ marketImpact m = 0
    /\ estimatedFill m = 0
    /\ divisors Double parseFloat (Some book) form
       = [parseFloat (quantity form)]
    /\ Forall (fun d => (d =? 0) = false)
         (divisors Double parseFloat (Some book) form).
Proof.
  intros parseFloat book form Hasks Hside Hne Hq m.
  assert (Hlog : calculateMarketImpact_logged Double parseFloat (Some book)
                   form
                 = impact Double (parseFloat (quantity form)) []).
  { rewrite calculateMarketImpact_logged_eq by assumption.
    rewrite Hside. cbn [opposing number Double]. now rewrite Hasks. }
  split.
  { rewrite Hside. cbn [opposing number Double]. now rewrite Hasks. }
  subst m. unfold calculateMarketImpact, divisors. rewrite Hlog.
  set (oq := parseFloat (quantity form)) in *.
  assert (Himpact : impact Double oq []
                    = (mkMetrics ((0 / oq) * 100) 0 0 0 0, [oq]))
    by reflexivity.
  rewrite Himpact, (zero_div_positive (q:=oq) Hq).
  cbn [fst snd slippage marketImpact estimatedFill].
  repeat (split; [reflexivity|]).
  constructor; [exact (positive_not_zero (q:=oq) Hq)|constructor].
Qed.

Lemma empty_asks_buy_is_safe_witness :
  asks no_asks = []
  /\ side (buy_order "1") = buy
  /\ quantity (buy_order "1") <> EmptyString
  /\ F64.gtb (Builtins.parseFloat_text (quantity (buy_order "1"))) 0 = true
  /\ bestPrice_of Double (opposing (side (buy_order "1")) no_asks) = 0
  /\ slippage (calculateMarketImpact Double Builtins.parseFloat_text
                 (Some no_asks) (buy_order "1")) = 0
  /\ marketImpact (calculateMarketImpact Double Builtins.parseFloat_text
                     (Some no_asks) (buy_order "1")) = 0
  /\ estimatedFill (calculateMarketImpact Double Builtins.parseFloat_text
                      (Some no_asks) (buy_order "1")) = 0
  /\ divisors Double Builtins.parseFloat_text (Some no_asks) (buy_order "1")
     = [Builtins.parseFloat_text (quantity (buy_order "1"))]
  /\ Forall (fun d => (d =? 0) = false)
       (divisors Double Builtins.parseFloat_text (Some no_asks)
          (buy_order "1")).
Proof.
  split; [reflexivity|].
  split; [reflexivity|].
  split; [discriminate|].
  split; [reflexivity|].
  apply (@empty_asks_buy_is_safe Builtins.parseFloat_text no_asks
           (buy_order "1")).
  - reflexivity.
  - reflexivity.
  - discriminate.
  - reflexivity.
Defined.

(** *** A worked example *)

(** C7.  Against asks [{100, 1}, {101, 2}], a buy order of quantity 2
    fills 2 at a cost of 201; the average price is 100.5, the best
    price 100, the slippage 0.5 and the estimated fill 100.  The market
    impact is [(2 / 3) * 100], which lies between 66.666 and 66.667; in
    exact arithmetic it is 200/3. *)
Theorem buy_two_against_two_asks :
  forall (parseFloat : string -> float)
         (parseFloat_exact : string -> ExactNum.num),
    parseFloat "2" = 2 ->
    parseFloat_exact "2" = of_Z 2 ->
    let w := walk Double (asks two_asks) (start Double (parseFloat "2")) in
    let m := calculateMarketImpact Double parseFloat (Some two_asks)
               (buy_order "2") in
    let m' := calculateMarketImpact Exact parseFloat_exact
                (Some two_asks_exact) (buy_order "2") in
    totalQuantityFilled w = 2
    /\ totalCost w = 201
    /\ averagePrice m = 100.5
    /\ bestPrice_of Double (asks two_asks) = 100
    /\ slippage m = 0.5
    /\ estimatedFill m = 100
    /\ marketImpact m = (2 / 3) * 100
    /\ (66.666 <? marketImpact m) = true
    /\ (marketImpact m <? 66.667) = true
    /\ marketImpact m' = of_Q (200 # 3).
Proof.
  intros parseFloat parseFloat_exact Hparse Hparse' w m m'. subst w m m'.
  unfold calculateMarketImpact.
  rewrite !calculateMarketImpact_logged_eq by discriminate.
  cbn [quantity side buy_order opposing].
  rewrite Hparse, Hparse'.
  repeat (split; [vm_compute; reflexivity|]).
  apply Fin_eq. vm_compute. reflexivity.
Qed.

Lemma buy_two_against_two_asks_witness :
  Builtins.parseFloat_text "2" = 2
  /\ Builtins.parseFloat_exact "2" = of_Z 2
  /\ totalQuantityFilled
       (walk Double (asks two_asks)
             (start Double (Builtins.parseFloat_text "2"))) = 2
  /\ totalCost
       (walk Double (asks two_asks)
             (start Double (Builtins.parseFloat_text "2"))) = 201
  /\ averagePrice (calculateMarketImpact Double Builtins.parseFloat_text
                     (Some two_asks) (buy_order "2")) = 100.5
  /\ bestPrice_of Double (asks two_asks) = 100
  /\ slippage (calculateMarketImpact Double Builtins.parseFloat_text
                 (Some two_asks) (buy_order "2")) = 0.5
  /\ estimatedFill (calculateMarketImpact Double Builtins.parseFloat_text
                      (Some two_asks) (buy_order "2")) = 100
  /\ marketImpact (calculateMarketImpact Double Builtins.parseFloat_text
                     (Some two_asks) (buy_order "2")) = (2 / 3) * 100
  /\ (66.666 <? marketImpact
                  (calculateMarketImpact Double Builtins.parseFloat_text
                     (Some two_asks) (buy_order "2"))) = true
  /\ (marketImpact (calculateMarketImpact Double Builtins.parseFloat_text
                      (Some two_asks) (buy_order "2")) <? 66.667) = true
  /\ marketImpact (calculateMarketImpact Exact Builtins.parseFloat_exact
                     (Some two_asks_exact) (buy_order "2"))
     = of_Q (200 # 3).
Proof.
  split; [reflexivity|].
  split; [apply Fin_eq; reflexivity|].
  apply (@buy_two_against_two_asks Builtins.parseFloat_text
           Builtins.parseFloat_exact).
  - reflexivity.
  - apply Fin_eq; reflexivity.
Defined.

(** A limit order to buy 2 at 100 is walked past its price: it takes
    the level at 101 like the market order. *)
Lemma limit_order_walks_past_its_price :
  Orderbook.worstPrice
    (calculateMarketImpact Double Builtins.parseFloat_text (Some two_asks)
       (mkForm limit buy "100" "2" immediate))
  = 101.
Proof. vm_compute. reflexivity. Qed.

(** *** The guard of the market impact *)

(** C5.  The guard of the market impact tests the number of levels, not
    their total quantity: against the single ask [{100, 0}] a buy
    order of quantity 1 fills nothing, the opposing quantities sum to
    0, and the simulator divides 0 by 0: the market impact is NaN, not
    the 0 the design document prescribes. *)
Theorem market_impact_of_zero_depth_is_NaN :
  Builtins.parseFloat_text "1" = 1
  /\ total_quantity Double (asks empty_ask) = 0
  /\ F64.gtb (total_quantity Double (asks empty_ask)) 0 = false
  /\ marketImpact (calculateMarketImpact Double Builtins.parseFloat_text
                     (Some empty_ask) (buy_order "1")) = nan
  /\ divisors Double Builtins.parseFloat_text (Some empty_ask)
       (buy_order "1") = [1; 100; 0].
Proof. repeat split; vm_compute; reflexivity. Qed.

(** *** Rounding *)



(** There the order is covered by the depth and yet the estimated fill
    is one unit in the last place below 100. *)
Lemma estimated_fill_just_below_100 :
  (Builtins.parseFloat_text "3.9"
   <=? total_quantity Double (opposing buy asks_adding_to_4)) = true
  /\ estimatedFill
       (calculateMarketImpact Double Builtins.parseFloat_text
          (Some asks_adding_to_4) (buy_order "3.9"))
     = 0x1.8ffffffffffffp+6
  /\ (estimatedFill
        (calculateMarketImpact Double Builtins.parseFloat_text
           (Some asks_adding_to_4) (buy_order "3.9")) =? 100) = false.
Proof. repeat split; vm_compute; reflexivity. Qed.

End SimulatorFacts.

(* ================================================================== *)
(** * The normalizer *)
(* ================================================================== *)

Module NormalizerFacts.

Import useOrderbookData.
Import Properties Examples.
Local Open Scope string_scope.

(** ** Inversion of the adapters *)

Lemma map_method_Normal {A} raw (conv : value -> completion A) l :
  map_method raw conv = Normal l ->
  exists items, raw = VArr items /\ mapM conv items = Normal l.
Proof.
  destruct raw; cbn [map_method]; try discriminate.
  intros H. now exists items.
Qed.

Lemma levels_of_Normal raw conv l :
  levels_of raw conv = Normal l ->
  exists items all,
    raw = VArr items /\ mapM conv items = Normal all /\ l = firstn 15 all.
Proof.
  unfold levels_of, Js.bind.
  destruct (map_method raw conv) as [all|] eqn:Hmap; [|discriminate].
  intros H. injection H as <-.
  destruct (map_method_Normal _ _ Hmap) as (items & -> & Hitems).
  now exists items, all.
Qed.

Lemma levels_of_side_from raw conv l :
  levels_of raw conv = Normal l -> side_from conv raw l.
Proof.
  intros H. destruct (levels_of_Normal _ _ H) as (items & all & -> & Hm & ->).
  exists all. split; [|reflexivity].
  unfold converted. now cbn [map_method].
Qed.

(** Splits the head [bind] or [if] of a hypothesis that evaluates an
    adapter. *)
Ltac step_parse H :=
  match type of H with
  | Js.bind ?m _ = _ =>
      let E := fresh "E" in
      destruct m eqn:E; cbn [Js.bind] in H; [|discriminate H]
  | (if ?b then _ else _) = _ =>
      let E := fresh "T" in
      destruct b eqn:E; [|discriminate H]
  end.

(** A snapshot comes from a truthy book payload whose two sides are
    arrays; each side of the snapshot is its array, converted and cut. *)
Lemma parse_Some_inv parseFloat parseInt venue data snap :
  parseOrderbookData parseFloat parseInt venue data = Some snap ->
  exists book rawBids rawAsks,
    book_payload venue data = Normal book
    /\ truthy book = true
    /\ get book (bids_key venue) = Normal rawBids
    /\ get book (asks_key venue) = Normal rawAsks
    /\ side_from (level_conv parseFloat venue) rawBids (bids snap)
    /\ side_from (level_conv parseFloat venue) rawAsks (asks snap).
Proof.
  unfold parseOrderbookData.
  destruct (parse_switch parseFloat parseInt venue data) as [r|] eqn:H;
    [|discriminate].
  intros ->. destruct venue; cbn [parse_switch] in H.
  - (* OKX *)
    unfold parse_OKX in H.
    step_parse H. step_parse H. step_parse H. step_parse H.
    step_parse H. step_parse H. step_parse H. step_parse H.
    step_parse H. step_parse H.
    injection H as <-.
    exists a0, a1, a3. cbn [book_payload bids_key asks_key level_conv].
    rewrite E. cbn [Js.bind]. rewrite T.
    repeat split; try assumption.
    + now apply levels_of_side_from.
    + now apply levels_of_side_from.
  - (* Bybit *)
    unfold parse_Bybit in H.
    step_parse H. step_parse H. step_parse H. step_parse H.
    step_parse H. step_parse H. step_parse H. step_parse H.
    injection H as <-.
    exists a, a0, a2. cbn [book_payload bids_key asks_key level_conv].
    repeat split; try assumption.
    + now apply levels_of_side_from.
    + now apply levels_of_side_from.
  - (* Deribit *)
    unfold parse_Deribit in H.
    step_parse H. step_parse H. step_parse H. step_parse H.
    step_parse H. step_parse H. step_parse H. step_parse H.
    step_parse H. step_parse H.
    injection H as <-.
    exists a0, a1, a3. cbn [book_payload bids_key asks_key level_conv].
    rewrite E. cbn [Js.bind]. rewrite T.
    repeat split; try assumption.
    + now apply levels_of_side_from.
    + now apply levels_of_side_from.
Qed.

(** ** Depth *)

(** C6.  A snapshot has at most 15 bids and at most 15 asks, however
    many levels the raw message holds. *)
Theorem snapshot_depth_at_most_15 :
  forall (parseFloat parseInt : value -> float) (venue : Venue)
         (data : value) (snap : OrderbookData value),
    parseOrderbookData parseFloat parseInt venue data = Some snap ->
    List.length (bids snap) <= 15 /\ List.length (asks snap) <= 15.
Proof.
  intros parseFloat parseInt venue data snap H.
  destruct (parse_Some_inv _ _ _ _ H)
    as (book & rawBids & rawAsks & _ & _ & _ & _ & Hb & Ha).
  destruct Hb as (allBids & _ & ->). destruct Ha as (allAsks & _ & ->).
  split; apply firstn_le_length.
Qed.

Lemma snapshot_depth_at_most_15_witness :
  exists snap,
    parseOrderbookData Builtins.parseFloat Builtins.parseInt Deribit
      deep_message = Some snap
    /\ List.length (bids snap) <= 15 /\ List.length (asks snap) <= 15.
Proof.
  eexists. split; [reflexivity|].
  apply (@snapshot_depth_at_most_15 Builtins.parseFloat Builtins.parseInt
           Deribit deep_message).
  reflexivity.
Defined.

(** ** Order *)

Lemma HdRel_firstn {A} (R : A -> A -> Prop) a l n :
  HdRel R a l -> HdRel R a (firstn n l).
Proof.
  intros H. destruct n, l; cbn [firstn]; try constructor.
  now inversion H.
Qed.

(** A prefix of a list whose neighbours are related has its neighbours
    related. *)
Lemma Sorted_firstn {A} (R : A -> A -> Prop) l :
  Sorted R l -> forall n, Sorted R (firstn n l).
Proof.
  induction 1 as [|a l Hs IH Hhd]; intros n.
  - rewrite firstn_nil. constructor.
  - destruct n; cbn [firstn]; constructor.
    + apply IH.
    + now apply HdRel_firstn.
Qed.

(** C1, as the code has it.  The normalizer does not sort.  Each side
    of a snapshot is the corresponding side of the raw message,
    converted level by level in the order of the message and cut
    after 15 levels; so the bids are sorted descending and the asks
    ascending whenever the raw message delivers them so. *)
Theorem snapshot_keeps_raw_order :
  forall (parseFloat parseInt : value -> float) (venue : Venue)
         (data : value) (snap : OrderbookData value),
    parseOrderbookData parseFloat parseInt venue data = Some snap ->
    exists book rawBids rawAsks allBids allAsks,
      book_payload venue data = Normal book
      /\ get book (bids_key venue) = Normal rawBids
      /\ get book (asks_key venue) = Normal rawAsks
      /\ converted (level_conv parseFloat venue) rawBids = Normal allBids
      /\ converted (level_conv parseFloat venue) rawAsks = Normal allAsks
      /\ bids snap = firstn 15 allBids
      /\ asks snap = firstn 15 allAsks
      /\ (bids_sorted allBids -> bids_sorted (bids snap))
      /\ (asks_sorted allAsks -> asks_sorted (asks snap)).
Proof.
  intros parseFloat parseInt venue data snap H.
  destruct (parse_Some_inv _ _ _ _ H)
    as (book & rawBids & rawAsks & Hp & _ & Hgb & Hga & Hb & Ha).
  destruct Hb as (allBids & Hcb & Hb). destruct Ha as (allAsks & Hca & Ha).
  exists book, rawBids, rawAsks, allBids, allAsks.
  repeat (split; [assumption|]).
  rewrite Hb, Ha. split; intros Hs; now apply Sorted_firstn.
Qed.

Lemma snapshot_keeps_raw_order_witness :
  exists snap,
    parseOrderbookData Builtins.parseFloat Builtins.parseInt Deribit
      deep_message = Some snap
    /\ exists book rawBids rawAsks allBids allAsks,
      book_payload Deribit deep_message = Normal book
      /\ get book (bids_key Deribit) = Normal rawBids
      /\ get book (asks_key Deribit) = Normal rawAsks
      /\ converted (level_conv Builtins.parseFloat Deribit) rawBids
         = Normal allBids
      /\ converted (level_conv Builtins.parseFloat Deribit) rawAsks
         = Normal allAsks
      /\ bids snap = firstn 15 allBids
      /\ asks snap = firstn 15 allAsks
      /\ (bids_sorted allBids -> bids_sorted (bids snap))
      /\ (asks_sorted allAsks -> asks_sorted (asks snap)).
Proof.
  eexists. split; [reflexivity|].
  apply (@snapshot_keeps_raw_order Builtins.parseFloat Builtins.parseInt
           Deribit deep_message).
  reflexivity.
Defined.

(** Bids that arrive in ascending order (and asks in descending order)
    are passed on as they are: the snapshot is not sorted. *)
Lemma unsorted_message_gives_unsorted_snapshot :
  exists snap,
    parseOrderbookData Builtins.parseFloat Builtins.parseInt Deribit
      unsorted_message = Some snap
    /\ ~ bids_sorted (bids snap)
    /\ ~ asks_sorted (asks snap).
Proof.
  eexists. split; [reflexivity|].
  split; intros Hs.
  - apply Sorted_inv in Hs. destruct Hs as [_ Hhd].
    apply HdRel_inv in Hhd. vm_compute in Hhd. discriminate Hhd.
  - apply Sorted_inv in Hs. destruct Hs as [_ Hhd].
    apply HdRel_inv in Hhd. vm_compute in Hhd. discriminate Hhd.
Qed.

(** ** Messages without asks *)

Lemma no_asks_no_snapshot parseFloat parseInt venue data :
  has_asks_field venue data = false ->
  parseOrderbookData parseFloat parseInt venue data = None.
Proof.
  intros Hmiss.
  destruct (parseOrderbookData parseFloat parseInt venue data)
    as [snap|] eqn:H; [exfalso|reflexivity].
  destruct (parse_Some_inv _ _ _ _ H)
    as (book & rawBids & rawAsks & Hp & _ & _ & Hga & _ & Ha).
  destruct Ha as (allAsks & Hca & _).
  unfold has_asks_field in Hmiss. rewrite Hp, Hga in Hmiss.
  destruct rawAsks; try discriminate Hmiss.
  discriminate Hca.
Qed.

(** C8.  A raw message without the asks field is parsed to [null], and
    the message handler then leaves the whole state of the hook (the
    stored snapshot, the connection flag and the error) as it was. *)
Theorem message_without_asks_is_ignored :
  forall (parseFloat parseInt : value -> float)
         (JSON_parse : string -> completion value) (venue : Venue)
         (st : HookState) (text : string) (data : value),
    JSON_parse text = Normal data ->
    has_asks_field venue data = false ->
    parseOrderbookData parseFloat parseInt venue data = None
    /\ onmessage parseFloat parseInt JSON_parse venue text st = st.
Proof.
  intros parseFloat parseInt JSON_parse venue st text data Htext Hmiss.
  pose proof (no_asks_no_snapshot parseFloat parseInt _ _ Hmiss) as Hnone.
  split; [exact Hnone|].
  unfold onmessage. now rewrite Htext, Hnone.
Qed.

Lemma message_without_asks_is_ignored_witness :
  let st := setOrderbookData (Some stored_snapshot) initial in
  parseOrderbookData Builtins.parseFloat Builtins.parseInt OKX
    okx_without_asks = None
  /\ onmessage Builtins.parseFloat Builtins.parseInt parse_one_text OKX
       "okx-without-asks" st = st.
Proof.
  apply (@message_without_asks_is_ignored Builtins.parseFloat
           Builtins.parseInt parse_one_text OKX
           (setOrderbookData (Some stored_snapshot) initial)
           "okx-without-asks" okx_without_asks);
    reflexivity.
Defined.

End NormalizerFacts.

(* ================================================================== *)
(** * The connection manager *)
(* ================================================================== *)

Module ManagerFacts.

Import useOrderbookData.
Import Properties Examples.
Local Open Scope string_scope.

Section Manager.

Variable parseFloat : value -> float.
Variable parseInt : value -> float.
Variable JSON_parse : string -> completion value.
Variable WebSocket_rejects : string -> option string.
Variable venue : Venue.
Variable symbol : string.

Local Abbreviation connect := (connect WebSocket_rejects venue symbol).
Local Abbreviation dispatch :=
  (dispatch parseFloat parseInt JSON_parse WebSocket_rejects venue symbol).
Local Abbreviation run :=
  (run parseFloat parseInt JSON_parse WebSocket_rejects venue symbol).

(** ** What [connect] touches *)

Lemma timers_connect st : timers (connect st) = timers st.
Proof.
  unfold useOrderbookData.connect.
  destruct (wsRef st) as [i|]; [destruct (nth_error (sockets st) i) as [s|];
    [destruct (readyState_eqb (readyState s) OPEN)|]|];
    destruct (getWebSocketUrl venue symbol);
    try destruct (WebSocket_rejects _); reflexivity.
Qed.

Lemma url_not_empty : getWebSocketUrl venue symbol <> EmptyString.
Proof. destruct venue; discriminate. Qed.

(** When the browser accepts the URL, [connect] leaves the hook with
    a fresh socket that is connecting. *)
Lemma connect_opens_socket st :
  WebSocket_rejects (getWebSocketUrl venue symbol) = None ->
  current_socket (connect st)
  = Some (mkSocket (getWebSocketUrl venue symbol) CONNECTING []).
Proof.
  intros Hok. unfold useOrderbookData.connect.
  set (st1 := match wsRef st with Some _ => _ | None => _ end).
  pose proof url_not_empty as Hurl.
  destruct (getWebSocketUrl venue symbol) as [|c u] eqn:E;
    [contradiction|].
  rewrite Hok. unfold current_socket. cbn [wsRef set_wsRef sockets set_sockets].
  rewrite nth_error_app2 by apply Nat.le_refl.
  now rewrite Nat.sub_diag.
Qed.

(** ** What the handlers schedule *)

(** The error handler records the error and marks the hook disconnected;
    it sets no timer.  The reconnection is the close handler's. *)
Lemma error_handler_schedules_nothing st :
  timers (onerror venue st) = timers st
  /\ reconnectTimeoutRef (onerror venue st) = reconnectTimeoutRef st
  /\ isConnected (onerror venue st) = false.
Proof. repeat split. Qed.

Lemma pending_last l id ms :
  existsb (fun t => Nat.eqb (timer_id t) id) (l ++ [mkTimer id ms]) = true.
Proof.
  rewrite existsb_app. cbn [existsb timer_id].
  rewrite Nat.eqb_refl. now rewrite orb_true_r.
Qed.

(** ** Every timer waits 5000 ms *)

Lemma fixed_delay_clearTimeout id st :
  fixed_delay st -> fixed_delay (clearTimeout id st).
Proof.
  unfold fixed_delay. cbn [timers clearTimeout]. intros H.
  rewrite Forall_forall in *. intros t Ht.
  apply filter_In in Ht. now apply H.
Qed.

Lemma fixed_delay_dispatch st e :
  fixed_delay st -> fixed_delay (dispatch st e).
Proof.
  intros H. destruct e; cbn [useOrderbookData.dispatch].
  - unfold fixed_delay. now rewrite timers_connect.
  - exact H.
  - unfold onmessage. destruct (JSON_parse text); [|exact H].
    destruct (parseOrderbookData _ _ _ _); exact H.
  - exact H.
  - unfold fixed_delay. cbn [onclose timers setTimeout_connect
      setIsConnected set_sockets].
    apply Forall_app. split; [exact H|].
    constructor; [reflexivity|constructor].
  - destruct (pending id st); [|exact H].
    unfold fixed_delay. rewrite timers_connect.
    now apply fixed_delay_clearTimeout.
  - unfold reconnect, fixed_delay. rewrite timers_connect.
    destruct (reconnectTimeoutRef st); [|exact H].
    now apply fixed_delay_clearTimeout.
  - unfold cleanup.
    destruct (wsRef st); destruct (reconnectTimeoutRef _);
      try exact H; now apply fixed_delay_clearTimeout.
Qed.

Lemma fixed_delay_run trace : forall st,
  fixed_delay st -> fixed_delay (run st trace).
Proof.
  induction trace as [|e trace IH]; intros st H; [exact H|].
  cbn [useOrderbookData.run fold_left]. apply IH.
  now apply fixed_delay_dispatch.
Qed.

(** ** Reconnection *)

(** C9.  In every state the hook can reach, the close of a socket
    (alone, or after the error event of a transport failure) schedules
    [connect] after exactly 5000 ms, whatever happened before: the hook
    keeps no count of failures and every timer it has pending waits the
    same 5000 ms, so there is no backoff and no limit on retries.  When
    the timer fires, [connect] runs and, the browser accepting the URL,
    the hook has a new socket in the connecting state. *)
Theorem reconnect_scheduled_after_every_failure :
  forall (trace : list event) (ws : nat),
    let st := run initial trace in
    let id := next_timer st in
    let closed := dispatch st (SocketClose ws) in
    let failed := run st (transport_failure ws) in
    let fresh := mkSocket (getWebSocketUrl venue symbol) CONNECTING [] in
    timers closed = (timers st ++ [mkTimer id 5000])%list
    /\ reconnectTimeoutRef closed = Some id
    /\ timers failed = (timers st ++ [mkTimer id 5000])%list
    /\ reconnectTimeoutRef failed = Some id
    /\ fixed_delay closed
    /\ fixed_delay failed
    /\ dispatch closed (TimerFires id) = connect (clearTimeout id closed)
    /\ dispatch failed (TimerFires id) = connect (clearTimeout id failed)
    /\ (WebSocket_rejects (getWebSocketUrl venue symbol) = None ->
        current_socket (dispatch closed (TimerFires id)) = Some fresh
        /\ current_socket (dispatch failed (TimerFires id)) = Some fresh).
Proof.
  intros trace ws st id closed failed fresh.
  assert (Hc : timers closed = (timers st ++ [mkTimer id 5000])%list)
    by reflexivity.
  assert (Hf : timers failed = (timers st ++ [mkTimer id 5000])%list)
    by reflexivity.
  assert (Hfire : forall s,
             timers s = (timers st ++ [mkTimer id 5000])%list ->
             dispatch s (TimerFires id) = connect (clearTimeout id s)).
  { intros s Hs. cbn [useOrderbookData.dispatch].
    unfold pending. now rewrite Hs, pending_last. }
  assert (Hst : fixed_delay st).
  { subst st. apply fixed_delay_run. constructor. }
  split; [exact Hc|]. split; [reflexivity|].
  split; [exact Hf|]. split; [reflexivity|].
  split; [now apply fixed_delay_dispatch|].
  split; [subst failed; now apply fixed_delay_run|].
  split; [now apply Hfire|]. split; [now apply Hfire|].
  intros Hok. rewrite !Hfire by assumption.
  split; now apply connect_opens_socket.
Qed.

End Manager.

Lemma reconnect_scheduled_after_every_failure_witness :
  timers (dispatch Builtins.parseFloat Builtins.parseInt parse_one_text
            accept_all OKX "BTC-USDT" open_state (SocketClose 0))
  = (timers open_state ++ [mkTimer (next_timer open_state) 5000])%list
  /\ accept_all (getWebSocketUrl OKX "BTC-USDT") = None
  /\ current_socket
       (dispatch Builtins.parseFloat Builtins.parseInt parse_one_text
          accept_all OKX "BTC-USDT"
          (run Builtins.parseFloat Builtins.parseInt parse_one_text
             accept_all OKX "BTC-USDT" open_state (transport_failure 0))
          (TimerFires (next_timer open_state)))
     = Some (mkSocket (getWebSocketUrl OKX "BTC-USDT") CONNECTING []).
Proof.
  pose proof (@reconnect_scheduled_after_every_failure
                Builtins.parseFloat Builtins.parseInt parse_one_text
                accept_all OKX "BTC-USDT" [Mount; SocketOpen 0] 0) as H.
  cbv zeta in H.
  destruct H as (Hc & _ & _ & _ & _ & _ & _ & _ & Hconn).
  split; [exact Hc|]. split; [reflexivity|].
  exact (proj2 (Hconn eq_refl)).
Defined.

End ManagerFacts.

(* ================================================================== *)
(** * More about the normalizer *)
(* ================================================================== *)

Module MoreNormalizerFacts.

Import useOrderbookData.
Import Properties MoreProperties Examples MoreExamples.
Import NormalizerFacts.
Local Open Scope string_scope.
Local Unset Implicit Arguments.

(** ** Which messages give a snapshot *)








(** ** How deep a snapshot is *)

Lemma mapM_length {A B} (f : A -> completion B) items : forall all,
  mapM f items = Normal all -> List.length all = List.length items.
Proof.
  induction items as [|x rest IH]; intros all H; cbn [mapM] in H.
  - now injection H as <-.
  - destruct (f x) as [y|]; cbn [Js.bind] in H; [|discriminate].
    destruct (mapM f rest) as [ys|]; cbn [Js.bind] in H; [|discriminate].
    injection H as <-. cbn [List.length]. now rewrite (IH ys).
Qed.

Lemma side_from_length conv raw side :
  side_from conv raw side ->
  exists items,
    raw = VArr items
    /\ List.length side = Nat.min 15 (List.length items).
Proof.
  intros (all & Hconv & ->). unfold converted in Hconv.
  destruct (map_method_Normal _ _ Hconv) as (items & -> & Hm).
  exists items. split; [reflexivity|].
  rewrite length_firstn. now rewrite (mapM_length _ _ _ Hm).
Qed.

(** X2.  Each side of a snapshot has exactly as many levels as the raw
    side, up to 15: the adapters drop no level but the ones after the
    15th (none for a quantity of 0, none for a price that is no
    number). *)
Theorem snapshot_depth_is_min_15 :
  forall (parseFloat parseInt : value -> float) (venue : Venue)
         (data : value) (snap : OrderbookData value),
    parseOrderbookData parseFloat parseInt venue data = Some snap ->
    exists book rawBids rawAsks,
      book_payload venue data = Normal book
      /\ get book (bids_key venue) = Normal (VArr rawBids)
      /\ get book (asks_key venue) = Normal (VArr rawAsks)
      /\ List.length (bids snap) = Nat.min 15 (List.length rawBids)
      /\ List.length (asks snap) = Nat.min 15 (List.length rawAsks).
Proof.
  intros parseFloat parseInt venue data snap H.
  destruct (parse_Some_inv _ _ _ _ H)
    as (book & rawBids & rawAsks & Hbook & _ & Hgb & Hga & Hb & Ha).
  destruct (side_from_length _ _ _ Hb) as (itemsB & -> & HlenB).
  destruct (side_from_length _ _ _ Ha) as (itemsA & -> & HlenA).
  exists book, itemsB, itemsA. repeat split; assumption.
Qed.

Lemma snapshot_depth_is_min_15_witness :
  exists snap,
    parseOrderbookData Builtins.parseFloat Builtins.parseInt Deribit
      deep_message = Some snap
    /\ exists book rawBids rawAsks,
         book_payload Deribit deep_message = Normal book
         /\ get book (bids_key Deribit) = Normal (VArr rawBids)
         /\ get book (asks_key Deribit) = Normal (VArr rawAsks)
         /\ List.length (bids snap) = Nat.min 15 (List.length rawBids)
         /\ List.length (asks snap) = Nat.min 15 (List.length rawAsks).
Proof.
  eexists. split; [reflexivity|].
  apply (snapshot_depth_is_min_15 Builtins.parseFloat Builtins.parseInt
           Deribit deep_message).
  reflexivity.
Defined.

(** ** What a snapshot holds *)

Lemma forallb_firstn {A} (p : A -> bool) n : forall l,
  forallb p l = true -> forallb p (firstn n l) = true.
Proof.
  induction n as [|n IH]; intros [|x l] H; try reflexivity.
  cbn [firstn forallb] in *. apply andb_true_iff in H as (Hx & Hl).
  now rewrite Hx, IH.
Qed.

Lemma mapM_level_of_strings parseFloat items : forall all,
  mapM (level_of_strings parseFloat) items = Normal all ->
  forallb numeric_level all = true.
Proof.
  induction items as [|x rest IH]; intros all H; cbn [mapM] in H.
  - now injection H as <-.
  - destruct (level_of_strings parseFloat x) as [y|] eqn:Ey;
      cbn [Js.bind] in H; [|discriminate].
    destruct (mapM (level_of_strings parseFloat) rest) as [ys|];
      cbn [Js.bind] in H; [|discriminate].
    injection H as <-. cbn [forallb]. rewrite (IH ys eq_refl).
    unfold level_of_strings in Ey.
    destruct (destructure_pair x) as [[p q]|]; cbn [Js.bind] in Ey;
      [|discriminate].
    now injection Ey as <-.
Qed.

Lemma parse_venue parseFloat parseInt venue data snap :
  parseOrderbookData parseFloat parseInt venue data = Some snap ->
  Orderbook.venue snap = venue.
Proof.
  unfold parseOrderbookData.
  destruct (parse_switch parseFloat parseInt venue data) as [r|] eqn:H;
    [|discriminate].
  intros ->. destruct venue; cbn [parse_switch] in H.
  - unfold parse_OKX in H. repeat step_parse H. now injection H as <-.
  - unfold parse_Bybit in H. repeat step_parse H. now injection H as <-.
  - unfold parse_Deribit in H. repeat step_parse H. now injection H as <-.
Qed.

(** X3.  A snapshot is tagged with the venue it was parsed for, and the
    price and the quantity of every level of an OKX or Bybit snapshot
    are numbers (the results of [Number.parseFloat], NaN for text that
    is no number). *)
Theorem okx_bybit_levels_are_numbers :
  forall (parseFloat parseInt : value -> float) (venue : Venue)
         (data : value) (snap : OrderbookData value),
    parseOrderbookData parseFloat parseInt venue data = Some snap ->
    Orderbook.venue snap = venue
    /\ (venue <> Deribit ->
        forallb numeric_level (bids snap) = true
        /\ forallb numeric_level (asks snap) = true).
Proof.
  intros parseFloat parseInt venue data snap H.
  split; [exact (parse_venue _ _ _ _ _ H)|].
  intros Hv.
  destruct (parse_Some_inv _ _ _ _ H)
    as (book & rawBids & rawAsks & _ & _ & _ & _ & Hb & Ha).
  assert (Hconv : level_conv parseFloat venue = level_of_strings parseFloat)
    by (destruct venue; [reflexivity|reflexivity|contradiction]).
  rewrite Hconv in Hb, Ha.
  destruct Hb as (allB & HB & ->). destruct Ha as (allA & HA & ->).
  unfold converted in HB, HA.
  destruct (map_method_Normal _ _ HB) as (itemsB & _ & HmB).
  destruct (map_method_Normal _ _ HA) as (itemsA & _ & HmA).
  split; apply forallb_firstn; eapply mapM_level_of_strings; eassumption.
Qed.

Lemma okx_bybit_levels_are_numbers_witness :
  exists snap,
    parseOrderbookData Builtins.parseFloat Builtins.parseInt OKX
      okx_message = Some snap
    /\ Orderbook.venue snap = OKX
    /\ forallb numeric_level (bids snap) = true
    /\ forallb numeric_level (asks snap) = true.
Proof.
  eexists. split; [reflexivity|].
  destruct (okx_bybit_levels_are_numbers Builtins.parseFloat
              Builtins.parseInt OKX okx_message _ eq_refl) as (Hv & Hl).
  split; [exact Hv|]. apply Hl. discriminate.
Defined.

(** ** What a message is read for *)

Lemma get_unread k v props key :
  key <> k -> get (VObj ((k, v) :: props)) key = get (VObj props) key.
Proof.
  intros H. cbn [get lookup].
  apply String.eqb_neq in H. now rewrite H.
Qed.

(** X4.  Of the message itself the adapters read the properties [data],
    [ts] and [params] and nothing else: any other property at the top
    of a message, such as the one by which a venue tells an update from
    a snapshot, has no influence on the result, so an update replaces
    the snapshot like a snapshot does. *)
Theorem unread_properties_do_not_matter :
  forall (parseFloat parseInt : value -> float) (venue : Venue)
         (k : string) (v : value) (props : list (string * value)),
    k <> "data" -> k <> "ts" -> k <> "params" ->
    parseOrderbookData parseFloat parseInt venue (VObj ((k, v) :: props))
    = parseOrderbookData parseFloat parseInt venue (VObj props).
Proof.
  intros parseFloat parseInt venue k v props Hdata Hts Hparams.
  assert (Gdata : get (VObj ((k, v) :: props)) "data"
                  = get (VObj props) "data")
    by (apply get_unread; congruence).
  assert (Gts : get (VObj ((k, v) :: props)) "ts" = get (VObj props) "ts")
    by (apply get_unread; congruence).
  assert (Gparams : get (VObj ((k, v) :: props)) "params"
                    = get (VObj props) "params")
    by (apply get_unread; congruence).
  unfold parseOrderbookData.
  destruct venue; cbn [parse_switch];
    unfold parse_OKX, parse_Bybit, parse_Deribit;
    rewrite ?Gdata, ?Gts, ?Gparams; reflexivity.
Qed.

Lemma unread_properties_do_not_matter_witness :
  parseOrderbookData Builtins.parseFloat Builtins.parseInt OKX okx_update
  = parseOrderbookData Builtins.parseFloat Builtins.parseInt OKX okx_message.
Proof.
  apply (unread_properties_do_not_matter Builtins.parseFloat
           Builtins.parseInt OKX "action" (VStr "update")).
  - discriminate.
  - discriminate.
  - discriminate.
Defined.

End MoreNormalizerFacts.

(* ================================================================== *)
(** * More about the connection manager *)
(* ================================================================== *)

Module MoreManagerFacts.

Import useOrderbookData.
Import Properties MoreProperties Examples MoreExamples.
Import ManagerFacts.
Local Open Scope string_scope.
Local Unset Implicit Arguments.

(** ** Sockets by index *)

Lemma length_update_nth {A} (f : A -> A) l : forall i,
  List.length (update_nth i f l) = List.length l.
Proof.
  induction l as [|x l IH]; intros [|i]; cbn [update_nth List.length];
    try reflexivity.
  now rewrite IH.
Qed.

Lemma nth_error_update_nth_eq {A} (f : A -> A) l : forall i x,
  nth_error l i = Some x -> nth_error (update_nth i f l) i = Some (f x).
Proof.
  induction l as [|y l IH]; intros [|i] x H; cbn [update_nth nth_error] in *;
    try discriminate.
  - now injection H as ->.
  - now apply IH.
Qed.

Lemma nth_error_update_nth_neq {A} (f : A -> A) l : forall i j,
  i <> j -> nth_error (update_nth i f l) j = nth_error l j.
Proof.
  induction l as [|y l IH]; intros [|i] [|j] H; cbn [update_nth nth_error];
    try reflexivity.
  - contradiction.
  - apply IH. intros ->. now apply H.
Qed.

Lemma nth_error_snoc_old {A} (l : list A) x i y :
  nth_error l i = Some y -> nth_error (l ++ [x]) i = Some y.
Proof.
  intros H. rewrite nth_error_app1; [exact H|].
  apply nth_error_Some. now rewrite H.
Qed.

Lemma nth_error_snoc_new {A} (l : list A) x :
  nth_error (l ++ [x]) (List.length l) = Some x.
Proof.
  rewrite nth_error_app2 by apply Nat.le_refl. now rewrite Nat.sub_diag.
Qed.

Section Manager.

Variable parseFloat : value -> float.
Variable parseInt : value -> float.
Variable JSON_parse : string -> completion value.
Variable WebSocket_rejects : string -> option string.
Variable venue : Venue.
Variable symbol : string.

Local Abbreviation connect := (connect WebSocket_rejects venue symbol).
Local Abbreviation reconnect := (reconnect WebSocket_rejects venue symbol).
Local Abbreviation dispatch :=
  (dispatch parseFloat parseInt JSON_parse WebSocket_rejects venue symbol).
Local Abbreviation run :=
  (run parseFloat parseInt JSON_parse WebSocket_rejects venue symbol).
Local Abbreviation received := (received parseFloat parseInt JSON_parse venue).
Local Abbreviation subscription := (getSubscriptionMessage venue symbol).
Local Abbreviation fresh :=
  (mkSocket (getWebSocketUrl venue symbol) CONNECTING []).

(** ** Messages *)

Lemma setOrderbookData_same st :
  setOrderbookData (orderbookData st) st = st.
Proof. now destruct st. Qed.

Lemma onmessage_received text st :
  onmessage parseFloat parseInt JSON_parse venue text st
  = setOrderbookData
      (match received text with
       | Some snap => Some snap
       | None => orderbookData st
       end) st.
Proof.
  unfold onmessage, MoreProperties.received.
  destruct (JSON_parse text) as [data|];
    [destruct (parseOrderbookData parseFloat parseInt venue data)|];
    try reflexivity; now rewrite setOrderbookData_same.
Qed.

Lemma latest_snapshot_cons r rs old :
  latest_snapshot (r :: rs) old
  = latest_snapshot rs (match r with Some snap => Some snap | None => old end).
Proof.
  unfold latest_snapshot. cbn [rev].
  induction (rev rs) as [|x l IH]; cbn [app find].
  - now destruct r.
  - destruct x as [snap|]; cbn [returned]; [reflexivity|exact IH].
Qed.

(** X5.  A burst of messages changes nothing of the hook but the
    snapshot, whatever sockets they arrive on (a socket the hook has
    replaced included): the connection status, the error, the sockets
    and the timers stay as they were, and the snapshot becomes that of
    the last message that parses, or stays the one held before when
    none does. *)
Theorem messages_only_replace_snapshot :
  forall (msgs : list (nat * string)) (st : HookState),
    run st (messages msgs)
    = setOrderbookData
        (latest_snapshot (map (fun m => received (snd m)) msgs)
                         (orderbookData st))
        st.
Proof.
  induction msgs as [|[ws text] msgs IH]; intros st.
  - cbn. now rewrite setOrderbookData_same.
  - cbn [messages map useOrderbookData.run fold_left
         useOrderbookData.dispatch fst snd].
    change (fold_left dispatch (map _ msgs) ?s) with (run s (messages msgs)).
    rewrite IH, latest_snapshot_cons, onmessage_received.
    reflexivity.
Qed.

(** ** What [connect] does to the socket it replaces *)

Lemma connect_accepted st :
  WebSocket_rejects (getWebSocketUrl venue symbol) = None ->
  exists l,
    List.length l = List.length (sockets st)
    /\ l = match wsRef st with
           | Some i =>
               match nth_error (sockets st) i with
               | Some s =>
                   if readyState_eqb (readyState s) OPEN
                   then update_nth i close_socket (sockets st)
                   else sockets st
               | None => sockets st
               end
           | None => sockets st
           end
    /\ connect st
       = mkHook (orderbookData st) (isConnected st) (error st)
                (Some (List.length (sockets st))) (reconnectTimeoutRef st)
                (l ++ [fresh]) (timers st) (next_timer st).
Proof.
  intros Hok. unfold useOrderbookData.connect.
  pose proof (url_not_empty venue symbol) as Hurl.
  destruct (getWebSocketUrl venue symbol) as [|c u] eqn:E;
    [contradiction|].
  rewrite Hok.
  destruct (wsRef st) as [i|];
    [destruct (nth_error (sockets st) i) as [s|];
     [destruct (readyState_eqb (readyState s) OPEN)|]|];
    eexists; (split; [|split; [reflexivity|]]);
    cbn [sockets set_sockets]; try rewrite length_update_nth;
    reflexivity.
Qed.

(** The part of [reconnect] before [connect] touches no socket. *)
Lemma reconnect_connect st :
  exists st0,
    useOrderbookData.reconnect WebSocket_rejects venue symbol st = connect st0
    /\ sockets st0 = sockets st
    /\ wsRef st0 = wsRef st
    /\ isConnected st0 = isConnected st
    /\ next_timer st0 = next_timer st.
Proof.
  unfold useOrderbookData.reconnect.
  destruct (reconnectTimeoutRef st) as [id|]; eexists;
    (split; [reflexivity|]); repeat split.
Qed.

(** X6.  [connect] closes the socket it replaces only when that socket
    is open.  A socket replaced while still connecting (the status
    badge lets the user reconnect whenever the hook is not connected)
    stays alive: once it opens it is sent the subscription and the hook
    reports itself connected, although the socket the hook refers to is
    another one; and the clean-up of the effect, which closes the
    socket the hook refers to, leaves the replaced one open. *)
Theorem replaced_connecting_socket_is_leaked :
  forall (st : HookState) (i : nat) (s : Socket),
    wsRef st = Some i ->
    nth_error (sockets st) i = Some s ->
    readyState s = CONNECTING ->
    WebSocket_rejects (getWebSocketUrl venue symbol) = None ->
    let new := List.length (sockets st) in
    let st' := run st [ManualReconnect; SocketOpen i; Unmount] in
    nth_error (sockets st') i
    = Some (mkSocket (url s) OPEN (sent s ++ [subscription]))
    /\ isConnected st' = true
    /\ wsRef st' = Some new
    /\ readyState_of st' new = Some CLOSING.
Proof.
  intros st i s Hws Hs Hcon Hok new st'.
  assert (Hlt : i < List.length (sockets st))
    by (apply nth_error_Some; now rewrite Hs).
  assert (Hne : i <> new) by (unfold new; lia).
  subst st'. cbn [useOrderbookData.run fold_left useOrderbookData.dispatch].
  destruct (reconnect_connect st) as (st0 & -> & Hsock & Hws0 & _ & _).
  destruct (connect_accepted st0 Hok) as (l & _ & Hl & ->).
  rewrite Hws0, Hws, Hsock in Hl. cbv beta iota in Hl.
  rewrite Hs, Hcon in Hl. cbn [readyState_eqb] in Hl. subst l.
  rewrite Hsock.
  unfold onopen, cleanup.
  cbn [sockets set_sockets setIsConnected setError wsRef isConnected
       reconnectTimeoutRef].
  assert (Hopen :
            nth_error
              (update_nth i (send_socket subscription)
                 (update_nth i (set_readyState OPEN)
                    (sockets st ++ [fresh]))) i
            = Some (mkSocket (url s) OPEN (sent s ++ [subscription]))).
  { rewrite (nth_error_update_nth_eq _ _ _ (set_readyState OPEN s));
      [reflexivity|].
    apply nth_error_update_nth_eq. now apply nth_error_snoc_old. }
  assert (Hnew :
            nth_error
              (update_nth i (send_socket subscription)
                 (update_nth i (set_readyState OPEN)
                    (sockets st ++ [fresh]))) new
            = Some fresh).
  { rewrite !nth_error_update_nth_neq by assumption.
    apply nth_error_snoc_new. }
  assert (Hgoal :
            forall st2,
              sockets st2
              = update_nth new close_socket
                  (update_nth i (send_socket subscription)
                     (update_nth i (set_readyState OPEN)
                        (sockets st ++ [fresh]))) ->
              isConnected st2 = true ->
              wsRef st2 = Some new ->
              nth_error (sockets st2) i
              = Some (mkSocket (url s) OPEN (sent s ++ [subscription]))
              /\ isConnected st2 = true
              /\ wsRef st2 = Some new
              /\ readyState_of st2 new = Some CLOSING).
  { intros st2 H2 Hc2 Hw2. unfold readyState_of. rewrite H2.
    rewrite nth_error_update_nth_neq by (intros E; now apply Hne).
    rewrite (nth_error_update_nth_eq _ _ _ _ Hnew).
    repeat split; assumption. }
  destruct (reconnectTimeoutRef st0) as [id|]; apply Hgoal; reflexivity.
Qed.

(** Shows a hook state by its fields. *)
Ltac reveal_state st :=
  destruct st as [data connected err ws timeout socks tms next];
  cbn [orderbookData isConnected error wsRef reconnectTimeoutRef sockets
       timers next_timer] in *.

Ltac hook_step :=
  cbn [useOrderbookData.run fold_left useOrderbookData.dispatch
       onopen onclose onerror cleanup
       setOrderbookData setIsConnected setError set_wsRef set_sockets
       setTimeout_connect clearTimeout
       orderbookData isConnected error wsRef reconnectTimeoutRef sockets
       timers next_timer] in *.

(** X7.  [connect] on a hook whose socket is open starts the closing
    handshake of that socket and makes a new, connecting socket the
    current one. *)
Theorem connect_while_open_replaces :
  forall (st : HookState) (i : nat) (s : Socket),
    wsRef st = Some i ->
    nth_error (sockets st) i = Some s ->
    readyState s = OPEN ->
    WebSocket_rejects (getWebSocketUrl venue symbol) = None ->
    replacing (connect st) i (List.length (sockets st))
    /\ isConnected (connect st) = isConnected st
    /\ timers (connect st) = timers st.
Proof.
  intros st i s Hws Hs Hopen Hok.
  assert (Hlt : i < List.length (sockets st))
    by (apply nth_error_Some; now rewrite Hs).
  destruct (connect_accepted st Hok) as (l & Hlen & Hl & ->).
  rewrite Hws in Hl. cbv beta iota in Hl.
  rewrite Hs, Hopen in Hl. cbn [readyState_eqb] in Hl. subst l.
  split; [|split; reflexivity].
  unfold replacing, readyState_of. hook_step.
  rewrite length_app, Hlen. cbn [List.length].
  split; [reflexivity|]. split; [lia|]. split; [exact Hlt|].
  split.
  - rewrite nth_error_app1 by (rewrite Hlen; exact Hlt).
    rewrite (nth_error_update_nth_eq _ _ _ _ Hs).
    unfold close_socket. now rewrite Hopen.
  - rewrite <- Hlen. now rewrite nth_error_snoc_new.
Qed.

(** X8.  Once the hook has replaced an open socket, it does so again:
    when the new socket opens and the close event of the old one
    arrives, the close handler marks the hook disconnected (the current
    socket being open) and schedules [connect], which, 5000 ms later,
    closes the current socket and opens the next one.  The hook is then
    where it started, one socket further. *)
Theorem replacing_an_open_socket_repeats :
  forall (st : HookState) (old new : nat),
    WebSocket_rejects (getWebSocketUrl venue symbol) = None ->
    replacing st old new ->
    let id := next_timer st in
    let closed := run st [SocketOpen new; SocketClose old] in
    let st' := dispatch closed (TimerFires id) in
    isConnected closed = false
    /\ readyState_of closed new = Some OPEN
    /\ timers closed = (timers st ++ [mkTimer id 5000])%list
    /\ replacing st' new (S new).
Proof.
  intros st old new Hok (Hws & Hlen & Hlt & Hold & Hnew) id closed st'.
  unfold readyState_of in *.
  destruct (nth_error (sockets st) old) as [so|] eqn:Eo; [|discriminate].
  destruct (nth_error (sockets st) new) as [sn|] eqn:En; [|discriminate].
  cbn [option_map] in Hold, Hnew.
  injection Hold as Hold. injection Hnew as Hnew.
  assert (Hne : old <> new) by lia.
  set (socks2 :=
         update_nth old (set_readyState CLOSED)
           (update_nth new (send_socket subscription)
              (update_nth new (set_readyState OPEN) (sockets st)))).
  assert (Hclosed :
            closed
            = mkHook (orderbookData st) false None (Some new)
                     (Some id) socks2
                     (timers st ++ [mkTimer id 5000]) (S id)).
  { subst closed id socks2. reveal_state st. hook_step.
    now rewrite Hws. }
  assert (Hn2 : nth_error socks2 new
                = Some (mkSocket (url sn) OPEN (sent sn ++ [subscription]))).
  { subst socks2.
    rewrite nth_error_update_nth_neq by assumption.
    rewrite (nth_error_update_nth_eq _ _ _ (set_readyState OPEN sn));
      [reflexivity|].
    now apply nth_error_update_nth_eq. }
  assert (Hlen2 : List.length socks2 = S new).
  { subst socks2. now rewrite !length_update_nth. }
  split; [now rewrite Hclosed|].
  split; [now rewrite Hclosed; cbn [sockets]; rewrite Hn2|].
  split; [now rewrite Hclosed|].
  subst st'. rewrite Hclosed. cbn [useOrderbookData.dispatch].
  unfold pending. cbn [timers]. rewrite pending_last.
  set (st2 := clearTimeout id _).
  destruct (connect_accepted st2 Hok) as (l & Hl2 & Hl & ->).
  subst st2. hook_step. rewrite Hn2 in Hl. cbn [readyState readyState_eqb] in Hl.
  subst l. rewrite length_update_nth in Hl2.
  unfold replacing, readyState_of. hook_step.
  rewrite length_app, length_update_nth, Hlen2. cbn [List.length].
  split; [reflexivity|]. split; [lia|]. split; [lia|].
  split.
  - rewrite nth_error_app1 by (rewrite length_update_nth; lia).
    now rewrite (nth_error_update_nth_eq _ _ _ _ Hn2).
  - rewrite <- Hlen2 at 1.
    rewrite <- (length_update_nth close_socket socks2 new) at 1.
    now rewrite nth_error_snoc_new.
Qed.

(** ** The clean-up of the effect *)

Lemma not_pending_clearTimeout id st : pending id (clearTimeout id st) = false.
Proof.
  unfold pending. cbn [clearTimeout timers].
  induction (timers st) as [|t l IH]; [reflexivity|].
  cbn [filter]. destruct (Nat.eqb (timer_id t) id) eqn:E; cbn [negb].
  - exact IH.
  - cbn [existsb]. now rewrite E, IH.
Qed.

(** X9.  The clean-up of the effect closes the current socket and
    cancels the timer the hook remembers, but it leaves the handlers of
    the socket in place: when the close event of that socket arrives,
    the close handler schedules [connect] as ever, and 5000 ms later
    the unmounted hook opens a new socket. *)
Theorem unmount_does_not_stop_reconnection :
  forall (st : HookState) (i : nat) (s : Socket),
    wsRef st = Some i ->
    nth_error (sockets st) i = Some s ->
    readyState s = OPEN ->
    WebSocket_rejects (getWebSocketUrl venue symbol) = None ->
    let unmounted := dispatch st Unmount in
    let st' :=
      run unmounted [SocketClose i; TimerFires (next_timer st)] in
    readyState_of unmounted i = Some CLOSING
    /\ (forall id, reconnectTimeoutRef st = Some id ->
                   pending id unmounted = false)
    /\ wsRef st' = Some (List.length (sockets st))
    /\ current_socket st' = Some fresh.
Proof.
  intros st i s Hws Hs Hopen Hok unmounted st'.
  assert (Hun :
            exists tms,
              unmounted
              = mkHook (orderbookData st) (isConnected st) (error st)
                       (Some i) (reconnectTimeoutRef st)
                       (update_nth i close_socket (sockets st))
                       tms (next_timer st)
              /\ forall id, reconnectTimeoutRef st = Some id ->
                            existsb (fun t => Nat.eqb (timer_id t) id) tms
                            = false).
  { subst unmounted. reveal_state st. hook_step. subst ws.
    destruct timeout as [id|]; hook_step; eexists;
      (split; [reflexivity|]); intros id' H; [|discriminate].
    injection H as <-.
    exact (not_pending_clearTimeout id
             (mkHook data connected err (Some i) (Some id) socks tms next)). }
  destruct Hun as (tms & Hun & Hcancel).
  split.
  { rewrite Hun. unfold readyState_of. cbn [sockets].
    rewrite (nth_error_update_nth_eq _ _ _ _ Hs).
    unfold close_socket. now rewrite Hopen. }
  split.
  { intros id Hid. rewrite Hun. unfold pending. cbn [timers].
    now apply Hcancel. }
  subst st'. rewrite Hun. hook_step.
  unfold pending. hook_step. rewrite pending_last.
  set (st2 := clearTimeout (next_timer st) _).
  destruct (connect_accepted st2 Hok) as (l & Hlen & _ & ->).
  subst st2. hook_step. rewrite !length_update_nth in *.
  unfold current_socket. cbn [wsRef sockets].
  split; [reflexivity|].
  rewrite <- Hlen. apply nth_error_snoc_new.
Qed.

(** X10.  The clean-up cancels no timer but the one the hook remembers,
    the one set last.  A timer set by an earlier close event stays
    pending, and when it fires after the unmount, [connect] opens a new
    socket. *)
Theorem cleanup_keeps_earlier_timers :
  forall (st : HookState) (t : Timer),
    In t (timers st) ->
    reconnectTimeoutRef st <> Some (timer_id t) ->
    WebSocket_rejects (getWebSocketUrl venue symbol) = None ->
    let unmounted := dispatch st Unmount in
    In t (timers unmounted)
    /\ current_socket (dispatch unmounted (TimerFires (timer_id t)))
       = Some fresh.
Proof.
  intros st t Hin Href Hok unmounted.
  assert (Hkept : In t (timers unmounted)).
  { subst unmounted. cbn [useOrderbookData.dispatch]. unfold cleanup.
    set (st1 := match wsRef st with Some _ => _ | None => _ end).
    assert (H1 : timers st1 = timers st /\
                 reconnectTimeoutRef st1 = reconnectTimeoutRef st)
      by (subst st1; destruct (wsRef st); split; reflexivity).
    destruct H1 as (Ht1 & Hr1). rewrite Hr1.
    destruct (reconnectTimeoutRef st) as [id|]; [|now rewrite Ht1].
    cbn [clearTimeout timers]. rewrite Ht1. apply filter_In.
    split; [exact Hin|].
    destruct (Nat.eqb (timer_id t) id) eqn:E; [|reflexivity].
    apply Nat.eqb_eq in E. subst id. now contradiction Href. }
  split; [exact Hkept|].
  cbn [useOrderbookData.dispatch].
  assert (Hp : pending (timer_id t) unmounted = true).
  { unfold pending. apply existsb_exists. exists t.
    split; [exact Hkept|apply Nat.eqb_refl]. }
  fold unmounted. rewrite Hp.
  now apply connect_opens_socket.
Qed.

(** ** The error the hook reports *)


Lemma error_clearTimeout id st : error (clearTimeout id st) = error st.
Proof. reflexivity. Qed.



End Manager.

Lemma connect_while_open_replaces_witness :
  wsRef open_state = Some 0
  /\ replacing
       (useOrderbookData.connect accept_all OKX "BTC-USDT" open_state) 0 1.
Proof.
  split; [reflexivity|].
  apply (connect_while_open_replaces accept_all OKX "BTC-USDT" open_state 0
           (mkSocket (getWebSocketUrl OKX "BTC-USDT") OPEN
              [getSubscriptionMessage OKX "BTC-USDT"])
           eq_refl eq_refl eq_refl eq_refl).
Defined.

Lemma replacing_an_open_socket_repeats_witness :
  replacing reconnected_while_open 0 1
  /\ replacing
       (run Builtins.parseFloat Builtins.parseInt parse_one_text
          accept_all OKX "BTC-USDT" reconnected_while_open
          [SocketOpen 1; SocketClose 0;
           TimerFires (next_timer reconnected_while_open)])
       1 2.
Proof.
  assert (H : replacing reconnected_while_open 0 1).
  { unfold replacing. split; [reflexivity|]. split; [reflexivity|].
    split; [apply Nat.lt_0_1|]. split; reflexivity. }
  split; [exact H|].
  apply (replacing_an_open_socket_repeats
           Builtins.parseFloat Builtins.parseInt parse_one_text
           accept_all OKX "BTC-USDT" reconnected_while_open 0 1
           eq_refl H).
Defined.

Lemma unmount_does_not_stop_reconnection_witness :
  wsRef open_state = Some 0
  /\ current_socket
       (run Builtins.parseFloat Builtins.parseInt parse_one_text
          accept_all OKX "BTC-USDT" open_state
          [Unmount; SocketClose 0; TimerFires (next_timer open_state)])
     = Some (mkSocket (getWebSocketUrl OKX "BTC-USDT") CONNECTING []).
Proof.
  split; [reflexivity|].
  apply (unmount_does_not_stop_reconnection
           Builtins.parseFloat Builtins.parseInt parse_one_text
           accept_all OKX "BTC-USDT" open_state 0
           (mkSocket (getWebSocketUrl OKX "BTC-USDT") OPEN
              [getSubscriptionMessage OKX "BTC-USDT"])
           eq_refl eq_refl eq_refl eq_refl).
Defined.

Lemma cleanup_keeps_earlier_timers_witness :
  In (mkTimer 1 5000) (timers two_timers)
  /\ reconnectTimeoutRef two_timers = Some 2
  /\ In (mkTimer 1 5000)
       (timers
          (dispatch Builtins.parseFloat Builtins.parseInt parse_one_text
             accept_all OKX "BTC-USDT" two_timers Unmount)).
Proof.
  split; [left; reflexivity|]. split; [reflexivity|].
  apply (cleanup_keeps_earlier_timers
           Builtins.parseFloat Builtins.parseInt parse_one_text
           accept_all OKX "BTC-USDT" two_timers (mkTimer 1 5000)).
  - left; reflexivity.
  - discriminate.
  - reflexivity.
Defined.

(** ** The subscription *)

Lemma length_append (s t : string) :
  String.length (s ++ t) = String.length s + String.length t.
Proof. induction s as [|c s IH]; cbn; [reflexivity|now rewrite IH]. Qed.

Lemma append_inv_tail (t : string) : forall s1 s2 : string,
  s1 ++ t = s2 ++ t -> s1 = s2.
Proof.
  induction s1 as [|c1 s1 IH]; intros [|c2 s2] H; cbn in H.
  - reflexivity.
  - apply (f_equal String.length) in H. cbn in H.
    rewrite length_append in H. lia.
  - apply (f_equal String.length) in H. cbn in H.
    rewrite length_append in H. lia.
  - injection H as -> H. now rewrite (IH s2 H).
Qed.

(** X12.  The subscription message determines the venue and the symbol
    it was built for: the symbol is sent exactly as given (the
    normalized symbol the function computes is not used), and no two
    venues, and no two symbols of a venue, share a message. *)
Theorem subscription_determines_venue_and_symbol :
  forall (venue1 venue2 : Venue) (symbol1 symbol2 : string),
    getSubscriptionMessage venue1 symbol1
    = getSubscriptionMessage venue2 symbol2 ->
    venue1 = venue2 /\ symbol1 = symbol2.
Proof.
  intros venue1 venue2 symbol1 symbol2 H.
  destruct venue1, venue2; cbn [getSubscriptionMessage] in H;
    try discriminate H; (split; [reflexivity|]).
  - now injection H.
  - now injection H as H.
  - injection H as H. now apply append_inv_tail in H.
Qed.

Lemma subscription_determines_venue_and_symbol_witness :
  OKX = OKX /\ "BTC-USDT" = "BTC-USDT".
Proof.
  apply (subscription_determines_venue_and_symbol OKX OKX
           "BTC-USDT" "BTC-USDT").
  reflexivity.
Defined.

Lemma replaced_connecting_socket_is_leaked_witness :
  wsRef mounted = Some 0
  /\ nth_error (sockets mounted) 0
     = Some (mkSocket (getWebSocketUrl OKX "BTC-USDT") CONNECTING [])
  /\ nth_error
       (sockets
          (run Builtins.parseFloat Builtins.parseInt parse_one_text
             accept_all OKX "BTC-USDT" mounted
             [ManualReconnect; SocketOpen 0; Unmount])) 0
     = Some (mkSocket (getWebSocketUrl OKX "BTC-USDT") OPEN
               [getSubscriptionMessage OKX "BTC-USDT"])
  /\ wsRef
       (run Builtins.parseFloat Builtins.parseInt parse_one_text
          accept_all OKX "BTC-USDT" mounted
          [ManualReconnect; SocketOpen 0; Unmount])
     = Some 1.
Proof.
  split; [reflexivity|]. split; [reflexivity|].
  destruct (replaced_connecting_socket_is_leaked
              Builtins.parseFloat Builtins.parseInt parse_one_text
              accept_all OKX "BTC-USDT" mounted 0
              (mkSocket (getWebSocketUrl OKX "BTC-USDT") CONNECTING [])
              eq_refl eq_refl eq_refl eq_refl)
    as (Hs & _ & Hw & _).
  split; [exact Hs|exact Hw].
Defined.

End MoreManagerFacts.

(* ================================================================== *)
(** * More about the order simulator *)
(* ================================================================== *)

Module MoreSimulatorFacts.

Import InteractiveOrderSimulationForm.
Import Properties MoreProperties Examples MoreExamples.
Import SimulatorFacts.
Local Open Scope string_scope.
Local Unset Implicit Arguments.

(** ** Whatever the arithmetic *)

Section AnyArithmetic.

Variable A : Arith.

(** Once nothing remains, the loop breaks at once. *)
Lemma walk_done levels (w : Walk A) :
  op_le A (remainingQuantity w) (lit_0 A) = true -> walk A levels w = w.
Proof. intros H. destruct levels; cbn [walk]; [reflexivity|now rewrite H]. Qed.

(** Walking a book is walking its top, then the rest. *)
Lemma walk_app l1 l2 : forall w : Walk A,
  walk A (l1 ++ l2) w = walk A l2 (walk A l1 w).
Proof.
  induction l1 as [|level l1 IH]; intros w; cbn [app walk]; [reflexivity|].
  destruct (op_le A (remainingQuantity w) (lit_0 A)) eqn:E.
  - now rewrite walk_done.
  - apply IH.
Qed.

Lemma averagePrice_impact orderQuantity levels :
  averagePrice (fst (impact A orderQuantity levels))
  = fst (averagePrice_of A (walk A levels (start A orderQuantity))).
Proof. unfold impact. now rewrite !fst_bind. Qed.

Lemma slippage_impact orderQuantity levels :
  slippage (fst (impact A orderQuantity levels))
  = fst (slippage_of A
           (fst (averagePrice_of A (walk A levels (start A orderQuantity))))
           (bestPrice_of A levels)).
Proof. unfold impact. now rewrite !fst_bind. Qed.

Lemma worstPrice_impact orderQuantity levels :
  Orderbook.worstPrice (fst (impact A orderQuantity levels))
  = worstPrice (walk A levels (start A orderQuantity)).
Proof. unfold impact. now rewrite !fst_bind. Qed.

(** X13.  The levels behind the ones that use up the order are not
    read by the walk: when the top levels of a side leave nothing of
    the order, any levels added behind them change no metric but the
    market impact (which divides by the total of the whole side). *)
Theorem depth_behind_the_fill_only_moves_market_impact :
  forall (orderQuantity : number A)
         (top behind : list (OrderbookLevel (number A))),
    top <> [] ->
    op_le A (remainingQuantity (walk A top (start A orderQuantity)))
          (lit_0 A) = true ->
    let m := fst (impact A orderQuantity (top ++ behind)) in
    let m_top := fst (impact A orderQuantity top) in
    walk A (top ++ behind) (start A orderQuantity)
    = walk A top (start A orderQuantity)
    /\ estimatedFill m = estimatedFill m_top
    /\ averagePrice m = averagePrice m_top
    /\ slippage m = slippage m_top
    /\ Orderbook.worstPrice m = Orderbook.worstPrice m_top.
Proof.
  intros q top behind Htop Hdone m m_top.
  assert (Hw : walk A (top ++ behind) (start A q) = walk A top (start A q)).
  { rewrite walk_app. now apply walk_done. }
  assert (Hbest : bestPrice_of A (top ++ behind) = bestPrice_of A top)
    by (destruct top; [contradiction|reflexivity]).
  subst m m_top.
  rewrite !estimatedFill_impact, !averagePrice_impact, !slippage_impact,
    !worstPrice_impact, Hw, Hbest.
  repeat split.
Qed.

(** X14.  One call divides at most four times, and every division but
    two is guarded: a divisor is the order quantity, or the total
    quantity of a side that has levels, or a number the code has just
    found greater than 0. *)
Theorem divisions_are_guarded_but_two :
  forall (parseFloat : string -> number A)
         (orderbookData : option (OrderbookData (number A)))
         (form : FormState),
    List.length (divisors A parseFloat orderbookData form) <= 4
    /\ Forall
         (fun d =>
            d = parseFloat (quantity form)
            \/ op_gt A d (lit_0 A) = true
            \/ exists book,
                 orderbookData = Some book
                 /\ opposing (side form) book <> []
                 /\ d = total_quantity A (opposing (side form) book))
         (divisors A parseFloat orderbookData form).
Proof.
  intros parseFloat [book|] form; unfold divisors;
    cbn [calculateMarketImpact_logged];
    [|split; [cbn; lia|constructor]].
  destruct (quantity form) as [|c q] eqn:Eq;
    [split; [cbn; lia|constructor]|].
  rewrite <- Eq. set (oq := parseFloat (quantity form)).
  set (levels := opposing (side form) book).
  assert (Hlevels : levels = opposing (side form) book) by reflexivity.
  clearbody levels oq.
  unfold impact, estimatedFill_of, averagePrice_of, slippage_of,
    marketImpact_of, divide, bind, ret.
  set (w := walk A levels (start A oq)).
  destruct (op_gt A (totalQuantityFilled w) (lit_0 A)) eqn:Efilled;
    cbn [fst snd app];
    match goal with
    | |- context [op_gt A ?b (lit_0 A)] =>
        destruct (op_gt A b (lit_0 A)) eqn:Ebest
    end;
    destruct levels as [|level rest];
    cbn [List.length Nat.ltb Nat.leb fst snd app];
    (split; [lia|]);
    repeat match goal with
           | |- Forall _ [] => constructor
           | |- Forall _ (_ :: _) => constructor
           end;
    try (left; reflexivity);
    try (right; left; assumption);
    right; right; exists book; rewrite <- Hlevels;
    (split; [reflexivity|]); (split; [discriminate|reflexivity]).
Qed.

End AnyArithmetic.

Lemma depth_behind_the_fill_only_moves_market_impact_witness :
  [level 100 1] <> []
  /\ (remainingQuantity
        (walk Double [level 100 1] (start Double 1%float)) <=? 0)%float
     = true
  /\ estimatedFill
       (fst (impact Double 1%float ([level 100 1] ++ [level 101 2])))
     = estimatedFill (fst (impact Double 1%float [level 100 1])).
Proof.
  split; [discriminate|]. split; [reflexivity|].
  apply (depth_behind_the_fill_only_moves_market_impact Double 1%float
           [level 100 1] [level 101 2]).
  - discriminate.
  - reflexivity.
Defined.

(** ** In binary64 *)

Local Open Scope float_scope.

Lemma zero_div_zero (q : float) : (q =? 0) = true -> is_nan (0 / q) = true.
Proof.
  intros H. rewrite eqb_spec in H.
  rewrite <- (SF2Prim_Prim2SF (0 / q)). rewrite div_spec.
  destruct (Prim2SF q) as [s|s| |s m e]; try destruct s;
    try discriminate H; reflexivity.
Qed.

Lemma zero_div_negative (q : float) : (q <? 0) = true -> 0 / q = -0.
Proof.
  intros H. rewrite ltb_spec in H.
  rewrite <- (SF2Prim_Prim2SF (0 / q)). rewrite div_spec.
  destruct (Prim2SF q) as [s|s| |s m e]; try discriminate H;
    destruct s; try discriminate H; reflexivity.
Qed.

Lemma nan_is_nan (x : float) : is_nan x = true -> x = nan.
Proof.
  intros H. unfold is_nan in H. rewrite eqb_spec in H.
  rewrite <- (SF2Prim_Prim2SF x).
  destruct (Prim2SF x) as [s|s| |s m e].
  - destruct s; discriminate H.
  - destruct s; discriminate H.
  - reflexivity.
  - exfalso. unfold SFeqb, SFcompare in H.
    destruct s; rewrite Z.compare_refl in H;
      rewrite Pos.compare_cont_refl in H; discriminate H.
Qed.

(** X15.  An order for nothing: when the quantity typed in parses to a
    number [<= 0], the walk takes no level, so the average price and the
    worst price are 0 whatever the book holds; the estimated fill is
    NaN for a quantity of 0 (the division 0/0) and a zero for a
    negative quantity. *)
Theorem order_for_nothing :
  forall (parseFloat : string -> float) (book : OrderbookData float)
         (form : FormState),
    quantity form <> EmptyString ->
    (parseFloat (quantity form) <=? 0) = true ->
    let orderQuantity := parseFloat (quantity form) in
    let m := calculateMarketImpact Double parseFloat (Some book) form in
    averagePrice m = 0
    /\ Orderbook.worstPrice m = 0
    /\ ((orderQuantity =? 0) = true -> is_nan (estimatedFill m) = true)
    /\ ((orderQuantity <? 0) = true -> (estimatedFill m =? 0) = true).
Proof.
  intros parseFloat book form Hne Hle oq m.
  subst m. unfold calculateMarketImpact.
  rewrite calculateMarketImpact_logged_eq by assumption.
  rewrite averagePrice_impact, worstPrice_impact, estimatedFill_impact.
  rewrite !walk_done by exact Hle.
  cbn [start totalQuantityFilled worstPrice averagePrice_of lit_0 lit_100
       op_gt op_mul op_div number Double].
  change (parseFloat (quantity form)) with oq.
  split; [reflexivity|]. split; [reflexivity|]. split.
  - intros H0. rewrite (nan_is_nan _ (zero_div_zero oq H0)). reflexivity.
  - intros Hneg. rewrite (zero_div_negative oq Hneg). reflexivity.
Qed.

Lemma order_for_nothing_witness :
  quantity (buy_order "0") <> EmptyString
  /\ (Builtins.parseFloat_text (quantity (buy_order "0")) =? 0) = true
  /\ is_nan
       (estimatedFill
          (calculateMarketImpact Double Builtins.parseFloat_text
             (Some two_asks) (buy_order "0"))) = true.
Proof.
  split; [discriminate|]. split; [reflexivity|].
  destruct (order_for_nothing Builtins.parseFloat_text two_asks
              (buy_order "0")) as (_ & _ & H0 & _).
  - discriminate.
  - reflexivity.
  - apply H0. reflexivity.
Defined.

End MoreSimulatorFacts.

(* ================================================================== *)
(** * The handlers of the form *)
(* ================================================================== *)

Module HandlerFacts.

Import InteractiveOrderSimulationForm OrderSimulationHandlers.
Import Properties MoreProperties Examples MoreExamples.
Local Open Scope string_scope.
Local Unset Implicit Arguments.

(** X16.  [handleSimulate] hands an order to its caller exactly when
    [isFormValid], the value that enables the button, is truthy: a
    quantity has been typed in and, for a limit order, a price.  Neither
    looks at what the texts parse to, nor at the order book. *)
Theorem simulate_guard_is_isFormValid :
  forall (parseFloat : string -> float) (venue : Venue) (symbol : string)
         (orderbookData : option (OrderbookData float)) (form : FormState),
    returned (handleSimulate parseFloat venue symbol orderbookData form)
    = truthy (isFormValid form).
Proof.
  intros parseFloat venue symbol orderbookData form.
  unfold handleSimulate, isFormValid.
  destruct (quantity form) as [|c q]; cbn [is_empty orb]; [reflexivity|].
  destruct (orderType form); cbn [is_limit andb]; [reflexivity|].
  destruct (price form); reflexivity.
Qed.

(** X17.  The order [handleSimulate] emits carries the metrics of the
    market order of the same side and quantity (the limit price goes
    into the order but not into its metrics), all three of them 0 when
    no order book has arrived yet; it has a price exactly when it is a
    limit order, and its time to fill is always set, to 0, 5, 10 or
    30. *)
Theorem simulated_order_contents :
  forall (parseFloat : string -> float) (venue : Venue) (symbol : string)
         (orderbookData : option (OrderbookData float)) (form : FormState)
         (order : Simulated.SimulatedOrder),
    handleSimulate parseFloat venue symbol orderbookData form = Some order ->
    let m :=
      calculateMarketImpact Double parseFloat orderbookData
        (mkForm market (side form) "" (quantity form) immediate) in
    Simulated.estimatedFill order = estimatedFill m
    /\ Simulated.marketImpact order = marketImpact m
    /\ Simulated.slippage order = slippage m
    /\ (orderbookData = None ->
        Simulated.estimatedFill order = 0%float
        /\ Simulated.marketImpact order = 0%float
        /\ Simulated.slippage order = 0%float)
    /\ Simulated.quantity order = parseFloat (quantity form)
    /\ (Simulated.price order = None <-> Simulated.type order = market)
    /\ exists t,
         Simulated.timeToFill order = Some t
         /\ In t [0%float; 5%float; 10%float; 30%float].
Proof.
  intros parseFloat venue symbol orderbookData form order H m.
  unfold handleSimulate in H.
  destruct (is_empty (quantity form)
            || is_limit (orderType form) && is_empty (price form))%bool;
    [discriminate|].
  injection H as <-.
  cbn [Simulated.estimatedFill Simulated.marketImpact Simulated.slippage
       Simulated.quantity Simulated.price Simulated.type
       Simulated.timeToFill].
  assert (Hm : calculateMarketImpact Double parseFloat orderbookData form = m)
    by (subst m; destruct orderbookData; reflexivity).
  rewrite Hm.
  split; [reflexivity|]. split; [reflexivity|]. split; [reflexivity|].
  split; [intros ->; repeat split|].
  split; [reflexivity|].
  split.
  - destruct (orderType form); cbn [is_limit]; split; intros E;
      try reflexivity; discriminate E.
  - exists (timingMap (timing form)). split; [reflexivity|].
    destruct (timing form); cbn [timingMap In]; auto.
Qed.

Lemma simulated_order_contents_witness :
  exists order,
    handleSimulate Builtins.parseFloat_text OKX "BTC-USDT" None
      (mkForm limit buy "100" "2" after_5s) = Some order
    /\ Simulated.estimatedFill order = 0%float
    /\ Simulated.price order = Some 100%float
    /\ Simulated.timeToFill order = Some 5%float.
Proof.
  eexists. split; [reflexivity|].
  destruct (simulated_order_contents Builtins.parseFloat_text OKX "BTC-USDT"
              None (mkForm limit buy "100" "2" after_5s) _ eq_refl)
    as (_ & _ & _ & H0 & _).
  split; [exact (proj1 (H0 eq_refl))|]. split; reflexivity.
Defined.

End HandlerFacts.

(* ================================================================== *)
(** * The figures of the order book display *)
(* ================================================================== *)

Module DisplayFacts.

Import OrderbookDisplay.
Import Properties MoreProperties Examples MoreExamples.
Local Open Scope float_scope.
Local Unset Implicit Arguments.

Lemma add_nan_r (x : float) : x + nan = nan.
Proof.
  rewrite <- (SF2Prim_Prim2SF (x + nan)). rewrite add_spec.
  destruct (Prim2SF x) as [s|s| |s m e]; try destruct s; reflexivity.
Qed.

Lemma add_nan_l (x : float) : nan + x = nan.
Proof.
  rewrite <- (SF2Prim_Prim2SF (nan + x)). rewrite add_spec.
  destruct (Prim2SF x) as [s|s| |s m e]; try destruct s; reflexivity.
Qed.

Lemma truthy_not_nan (x : float) : F64.truthy x = true -> is_nan x = false.
Proof.
  unfold F64.truthy. intros H. apply andb_true_iff in H as (_ & H).
  now destruct (is_nan x).
Qed.

(** X18.  The volume-weighted price the display shows is never NaN (a
    NaN is shown as 0), and for a book with an empty side the spread,
    the mid price and the volume-weighted price are all 0, whatever the
    other side holds: the average of the two sides' prices has a 0/0 in
    it. *)
Theorem figures_of_a_one_sided_book :
  forall (orderbookData : option (OrderbookData float)),
    is_nan (volumeWeightedPrice (figures orderbookData)) = false
    /\ (forall book,
          orderbookData = Some book ->
          asks book = [] \/ bids book = [] ->
          spread (figures orderbookData) = 0
          /\ midPrice (figures orderbookData) = 0
          /\ volumeWeightedPrice (figures orderbookData) = 0).
Proof.
  intros orderbookData. split.
  - destruct orderbookData as [book|]; cbn [figures volumeWeightedPrice];
      [|reflexivity].
    match goal with
    | |- is_nan (if F64.truthy ?v then _ else _) = false =>
        destruct (F64.truthy v) eqn:E;
          [exact (truthy_not_nan v E)|reflexivity]
    end.
  - intros book -> Hside. cbn [figures spread midPrice volumeWeightedPrice].
    unfold slice0. destruct Hside as [-> | ->]; rewrite firstn_nil.
    + change (turnover [] / volume []) with nan.
      rewrite add_nan_r. split; [reflexivity|split; reflexivity].
    + change (turnover [] / volume []) with nan.
      rewrite add_nan_l.
      destruct (firstn 15 (asks book)); split; try reflexivity;
        split; reflexivity.
Qed.

End DisplayFacts.
